(** * The shopping-cart workflow of poc-temporalio

    A shallow embedding of [terminos_y_condiciones/shared.py],
    [terminos_y_condiciones/workflows.py] and
    [terminos_y_condiciones/activities.py], followed by the properties of the
    cart lifecycle that the specification states.

    Python values are modelled as the interpreter has them: [int] is [Z],
    [float] is an IEEE binary64 number ([PrimFloat.float]), [str] is
    [string], a [dict] is an association list in insertion order (the order
    in which [dict.values()] iterates, which matters for a sum of floats).
    Calls to [workflow.logger] and [activity.logger] have no effect on the
    workflow state and are left out. *)

From Stdlib Require Import ZArith List String Bool Floats Lia.
Import ListNotations.

Local Open Scope string_scope.
Local Open Scope Z_scope.

(** ** Python numbers *)

Module PyNum.

(** A number held in a Python variable: [sum] of an empty iterable is the
    [int] 0, every other total of the cart is a [float]. *)
Inductive pynum : Type :=
| PInt (z : Z)
| PFloat (f : float).

(** The largest magnitude an [int] may have when it is converted to a
    [float]: from [2^1024 - 2^970] on, rounding to nearest-even leaves the
    binary64 range and CPython raises [OverflowError]. *)
Definition int_max_float : Z := 2 ^ 1024 - 2 ^ 970.

(** [float(z)], rounded to nearest-even; [None] stands for
    [OverflowError: int too large to convert to float]. *)
Definition float_of_int (z : Z) : option float :=
  if Z.abs z <? int_max_float
  then Some (SF2Prim (binary_normalize prec emax z 0 false))
  else None.

(** [float(x)] for a number of either kind. *)
Definition to_float (x : pynum) : option float :=
  match x with
  | PInt z => float_of_int z
  | PFloat f => Some f
  end.

(** [sum(xs)] over an iterable of floats: the accumulator starts as the
    [int] 0 and the floats are added from left to right. (CPython from
    3.12 on also carries a compensation term for the rounding error; no
    statement below depends on how the additions round.) *)
Definition py_sum (xs : list float) : pynum :=
  match xs with
  | [] => PInt 0
  | x :: rest => PFloat (fold_left PrimFloat.add rest (PrimFloat.add 0%float x))
  end.

(** Two numbers denote the same value: the same float once both are
    converted, so that the [int] 0 and the [float] 0.0 agree. *)
Definition same_number (a b : pynum) : Prop := to_float a = to_float b.

End PyNum.
Export PyNum.

(** ** Python dictionaries with string keys *)

Module Dict.

Section Ops.
Context {V : Type}.

Definition dict : Type := list (string * V).

(** [d.get(k)] *)
Fixpoint get (k : string) (d : dict) : option V :=
  match d with
  | [] => None
  | (k', v) :: d' => if String.eqb k k' then Some v else get k d'
  end.

(** [k in d] *)
Definition mem (k : string) (d : dict) : bool :=
  match get k d with Some _ => true | None => false end.

(** [d[k] = v]: an existing key keeps its position, a new key goes last. *)
Fixpoint set (k : string) (v : V) (d : dict) : dict :=
  match d with
  | [] => [(k, v)]
  | (k', v') :: d' =>
      if String.eqb k k' then (k', v) :: d' else (k', v') :: set k v d'
  end.

(** [del d[k]], for a key that is present. *)
Definition del (k : string) (d : dict) : dict :=
  filter (fun kv => negb (String.eqb k (fst kv))) d.

(** [d.values()], in insertion order. *)
Definition values (d : dict) : list V := map snd d.

End Ops.

Arguments dict V : clear implicits.

End Dict.

(** ** shared.py *)

Inductive EstadoCarrito : Type :=
| ABIERTO
| PAGADO
| ENVIADO
| ENTREGADO
| CANCELADO
| ABANDONADO.

Definition EstadoCarrito_eqb (a b : EstadoCarrito) : bool :=
  match a, b with
  | ABIERTO, ABIERTO | PAGADO, PAGADO | ENVIADO, ENVIADO
  | ENTREGADO, ENTREGADO | CANCELADO, CANCELADO | ABANDONADO, ABANDONADO => true
  | _, _ => false
  end.

(** The value of a member, which is also what the [str] mix-in stores. *)
Definition EstadoCarrito_value (e : EstadoCarrito) : string :=
  match e with
  | ABIERTO => "ABIERTO"
  | PAGADO => "PAGADO"
  | ENVIADO => "ENVIADO"
  | ENTREGADO => "ENTREGADO"
  | CANCELADO => "CANCELADO"
  | ABANDONADO => "ABANDONADO"
  end.

Record Item : Type := mkItem {
  item_id : string;
  nombre : string;
  precio : float;
  cantidad : Z
}.

(** The dictionary stored for one line of the cart:
    [{"nombre": .., "precio": .., "cantidad": .., "subtotal": ..}]. *)
Record Linea : Type := mkLinea {
  linea_nombre : string;
  linea_precio : float;
  linea_cantidad : Z;
  linea_subtotal : float
}.

Record EnvioRequest : Type := mkEnvioRequest {
  envio_usuario_id : string;
  envio_items : Dict.dict Linea;
  envio_direccion : string
}.

Definition direccion_por_defecto : string := "Dirección por defecto".

(** ** JSON payloads and exceptions *)

#[local] Set Warnings "-register-all".

Inductive json : Type :=
| JNull
| JBool (b : bool)
| JInt (z : Z)
| JFloat (f : float)
| JStr (s : string)
| JArr (xs : list json)
| JObj (fields : list (string * json)).

(** What the HTTP client hands back for one [client.post]. *)
Record Response : Type := mkResponse {
  status_code : Z;
  text : string;
  (** the message [raise_for_status] builds from status line and URL *)
  status_message : string;
  (** [response.json()], [None] when the body is not JSON *)
  body_json : option json
}.

Inductive exn : Type :=
| ApplicationError (message : string) (type : option string) (non_retryable : bool)
| OverflowError
| HTTPStatusError (response : Response)
| RequestError (message : string)
| JSONDecodeError.

(** [str(e)]; an ApplicationError that has a type prints it before the
    message. *)
Definition exn_str (e : exn) : string :=
  match e with
  | ApplicationError m None _ => m
  | ApplicationError m (Some t) _ => t ++ ": " ++ m
  | OverflowError => "int too large to convert to float"
  | HTTPStatusError r => status_message r
  | RequestError m => m
  | JSONDecodeError => "Expecting value"
  end.

(** [type(e).__name__] *)
Definition exn_class_name (e : exn) : string :=
  match e with
  | ApplicationError _ _ _ => "ApplicationError"
  | OverflowError => "OverflowError"
  | HTTPStatusError _ => "HTTPStatusError"
  | RequestError _ => "RequestError"
  | JSONDecodeError => "JSONDecodeError"
  end.

Inductive resultado (A : Type) : Type :=
| Ok (a : A)
| Raise (e : exn).
Arguments Ok {A} a.
Arguments Raise {A} e.

(** ** workflows.py: the workflow object and its handlers *)

(** The attributes [__init__] creates. *)
Record Workflow : Type := mkWorkflow {
  carrito_id : string;
  usuario_id : string;
  terminos_aceptados : bool;
  items_carrito : Dict.dict Linea;
  total_carrito : pynum;
  estado : EstadoCarrito;
  envio_resultado : json
}.

Definition Workflow_init : Workflow :=
  {| carrito_id := "";
     usuario_id := "";
     terminos_aceptados := false;
     items_carrito := [];
     total_carrito := PFloat 0%float;
     estado := ABIERTO;
     envio_resultado := JObj [] |}.

Definition set_terminos_aceptados (b : bool) (w : Workflow) : Workflow :=
  mkWorkflow (carrito_id w) (usuario_id w) b (items_carrito w)
             (total_carrito w) (estado w) (envio_resultado w).

Definition set_items_carrito (d : Dict.dict Linea) (w : Workflow) : Workflow :=
  mkWorkflow (carrito_id w) (usuario_id w) (terminos_aceptados w) d
             (total_carrito w) (estado w) (envio_resultado w).

Definition set_total_carrito (t : pynum) (w : Workflow) : Workflow :=
  mkWorkflow (carrito_id w) (usuario_id w) (terminos_aceptados w)
             (items_carrito w) t (estado w) (envio_resultado w).

Definition set_estado (e : EstadoCarrito) (w : Workflow) : Workflow :=
  mkWorkflow (carrito_id w) (usuario_id w) (terminos_aceptados w)
             (items_carrito w) (total_carrito w) e (envio_resultado w).

Definition set_envio_resultado (j : json) (w : Workflow) : Workflow :=
  mkWorkflow (carrito_id w) (usuario_id w) (terminos_aceptados w)
             (items_carrito w) (total_carrito w) (estado w) j.

(** A method of the workflow: it reads and writes [self] and either returns
    a value or raises; what it wrote before raising stays written. *)
Definition M (A : Type) : Type := Workflow -> resultado A * Workflow.

Definition ret {A} (a : A) : M A := fun w => (Ok a, w).

Definition raise {A} (e : exn) : M A := fun w => (Raise e, w).

Definition bind {A B} (m : M A) (k : A -> M B) : M B :=
  fun w =>
    match m w with
    | (Ok a, w') => k a w'
    | (Raise e, w') => (Raise e, w')
    end.

Definition self : M Workflow := fun w => (Ok w, w).

Definition modify (f : Workflow -> Workflow) : M unit := fun w => (Ok tt, f w).

Declare Scope method_scope.
Delimit Scope method_scope with method.
Notation "x <- m ;; k" := (bind m (fun x => k))
  (at level 61, m at next level, right associativity) : method_scope.
Notation "m ;; k" := (bind m (fun _ => k))
  (at level 61, right associativity) : method_scope.
Local Open Scope method_scope.

(** [precio * cantidad] with a float on the left and an int on the right:
    the int is converted first, which is where the product can raise. *)
Definition float_mul_int (x : float) (n : Z) : M float :=
  match float_of_int n with
  | Some y => ret (PrimFloat.mul x y)
  | None => raise OverflowError
  end.

Definition _recalcular_total : M unit :=
  modify (fun w =>
    set_total_carrito
      (py_sum (map linea_subtotal (Dict.values (items_carrito w)))) w).

(** [d[key]["cantidad"] += n] *)
Definition sumar_cantidad (n : Z) (l : Linea) : Linea :=
  mkLinea (linea_nombre l) (linea_precio l) (linea_cantidad l + n)
          (linea_subtotal l).

Definition agregar_item_carrito (item : Item) : M unit :=
  w <- self ;;
  if negb (EstadoCarrito_eqb (estado w) ABIERTO) then ret tt
  else
    match Dict.get (item_id item) (items_carrito w) with
    | Some l =>
        modify (set_items_carrito
                  (Dict.set (item_id item) (sumar_cantidad (cantidad item) l)
                            (items_carrito w)))
    | None =>
        subtotal <- float_mul_int (precio item) (cantidad item) ;;
        modify (set_items_carrito
                  (Dict.set (item_id item)
                            (mkLinea (nombre item) (precio item)
                                     (cantidad item) subtotal)
                            (items_carrito w)))
    end ;;
    _recalcular_total.

(** [f"{self.estado}"]: the member as [Enum.__str__] prints it (an
    interpreter older than 3.11 formats the bare value instead; the text of
    the message is not inspected anywhere). *)
Definition EstadoCarrito_str (e : EstadoCarrito) : string :=
  "EstadoCarrito." ++ EstadoCarrito_value e.

Definition mensaje_estado_invalido (e : EstadoCarrito) : string :=
  "No se pueden agregar items. El carrito está en estado: "
  ++ EstadoCarrito_str e.

Definition mensaje_stock_insuficiente (nombre_item : string) : string :=
  "Stock insuficiente para " ++ nombre_item ++ ". Máximo disponible: 5".

(** The dictionary [agregar_item_seguro] returns. *)
Record ItemAgregado : Type := mkItemAgregado {
  mensaje : string;
  item : string;
  nuevo_total : pynum
}.

Definition agregar_item_seguro (it : Item) : M ItemAgregado :=
  w <- self ;;
  if negb (EstadoCarrito_eqb (estado w) ABIERTO)
  then raise (ApplicationError (mensaje_estado_invalido (estado w)) None false)
  else if 5 <? cantidad it
  then raise (ApplicationError (mensaje_stock_insuficiente (nombre it))
                               (Some "StockInsuficiente") false)
  else
    agregar_item_carrito it ;;
    w' <- self ;;
    ret (mkItemAgregado "Item agregado correctamente" (nombre it)
                        (total_carrito w')).

Definition remover_item_carrito (id : string) : M unit :=
  w <- self ;;
  if negb (EstadoCarrito_eqb (estado w) ABIERTO) then ret tt
  else if Dict.mem id (items_carrito w)
  then
    modify (set_items_carrito (Dict.del id (items_carrito w))) ;;
    _recalcular_total
  else ret tt.

Definition aceptar_terminos : M unit :=
  w <- self ;;
  if negb (EstadoCarrito_eqb (estado w) ABIERTO) then ret tt
  else modify (set_terminos_aceptados true).

Definition completar_compra : M unit :=
  w <- self ;;
  if EstadoCarrito_eqb (estado w) ABIERTO
  then if negb (terminos_aceptados w) then ret tt
       else modify (set_estado PAGADO)
  else ret tt.

Definition confirmar_recepcion : M unit :=
  w <- self ;;
  if EstadoCarrito_eqb (estado w) ENVIADO
  then modify (set_estado ENTREGADO)
  else ret tt.

(** The dictionary [obtener_estado] returns. *)
Record EstadoConsulta : Type := mkEstadoConsulta {
  q_items_carrito : Dict.dict Linea;
  q_total_carrito : pynum;
  q_estado_actual : EstadoCarrito;
  q_terminos_aceptados : bool
}.

Definition obtener_estado (w : Workflow) : EstadoConsulta :=
  mkEstadoConsulta (items_carrito w) (total_carrito w) (estado w)
                   (terminos_aceptados w).

(** The dictionary [_estado_final] builds, which [run] returns. *)
Record ResultadoFinal : Type := mkResultadoFinal {
  r_carrito_id : string;
  r_usuario_id : string;
  r_terminos_aceptados : bool;
  r_items_carrito : Dict.dict Linea;
  r_total_carrito : pynum;
  r_detalles_envio : json;
  r_estado_carrito : EstadoCarrito;
  r_resultado_workflow : string
}.

Definition _estado_final (resultado_workflow : string) (w : Workflow)
  : ResultadoFinal :=
  mkResultadoFinal (carrito_id w) (usuario_id w) (terminos_aceptados w)
                   (items_carrito w) (total_carrito w) (envio_resultado w)
                   (estado w) resultado_workflow.

(** ** activities.py *)

(** The two ways [client.post] ends: with a response, or with an
    [httpx.RequestError] (connection refused, timeout, ...). *)
Inductive PostOutcome : Type :=
| Responded (r : Response)
| TransportFailed (message : string).

(** [response.is_success]: [raise_for_status] is silent for these only
    (releases of httpx that raise from 400 on only differ for the statuses
    below 200 and from 300 to 399, of which no statement below speaks). *)
Definition is_success (r : Response) : bool :=
  (200 <=? status_code r) && (status_code r <? 300).

Definition despachar_envio_activity
    (post : EnvioRequest -> PostOutcome) (request : EnvioRequest)
  : resultado json :=
  match post request with
  | Responded r =>
      if is_success r then
        match body_json r with
        | Some payload => Ok payload
        | None => Raise JSONDecodeError
        end
      else if (400 <=? status_code r) && (status_code r <? 500) then
        Raise (ApplicationError ("Error de API no reintentable: " ++ text r)
                                (Some "NonRetryableAPIError") true)
      else Raise (HTTPStatusError r)
  | TransportFailed m => Raise (RequestError m)
  end.

(** ** The Temporal host: activity attempts and their retries

    The worker runs one attempt of the activity at a time and the server
    decides about the next one from the [RetryPolicy] that [run] passes to
    [start_activity]. *)

Module Temporal.

Record RetryPolicy : Type := mkRetryPolicy {
  initial_interval : Z;        (* seconds *)
  backoff_coefficient : float;
  maximum_interval : Z;        (* seconds *)
  maximum_attempts : nat
}.

Inductive RetryState : Type :=
| MAXIMUM_ATTEMPTS_REACHED
| NON_RETRYABLE_FAILURE.

(** What [start_activity] raises in the workflow when the activity is given
    up: the failure of the last attempt as [cause]. *)
Record ActivityError : Type := mkActivityError {
  cause : exn;
  retry_state : RetryState
}.

(** The failure an exception of the activity travels as: an
    [ApplicationError] as it is, any other exception as an
    [ApplicationError] with its text and the name of its class. *)
Definition to_failure (e : exn) : exn :=
  match e with
  | ApplicationError _ _ _ => e
  | _ => ApplicationError (exn_str e) (Some (exn_class_name e)) false
  end.

(** An attempt that raised is followed by another one unless the failure
    is marked non-retryable (the policy of [run] lists no error types of
    its own). *)
Definition retryable (e : exn) : bool :=
  match e with
  | ApplicationError _ _ nr => negb nr
  | _ => true
  end.

(** How the activity ended, and the number of attempts made. *)
Record Execution : Type := mkExecution {
  outcome : json + ActivityError;
  attempts : nat
}.

Section Attempts.
Variable activity : nat -> resultado json.  (* attempt number, from 1 *)

(** Attempt [n], after which [retries] more may follow. *)
Fixpoint attempt_from (retries : nat) (n : nat) {struct retries}
  : Execution :=
  match activity n with
  | Ok payload => mkExecution (inl payload) n
  | Raise e =>
      if negb (retryable e) then
        mkExecution
          (inr (mkActivityError (to_failure e) NON_RETRYABLE_FAILURE)) n
      else
        match retries with
        | O => mkExecution
                 (inr (mkActivityError (to_failure e)
                                       MAXIMUM_ATTEMPTS_REACHED)) n
        | S retries' => attempt_from retries' (S n)
        end
  end.

(** For a policy that bounds the attempts ([maximum_attempts >= 1]). *)
Definition execute_activity (policy : RetryPolicy) : Execution :=
  attempt_from (Nat.pred (maximum_attempts policy)) 1%nat.
End Attempts.

End Temporal.

(** ** workflows.py: the [run] coroutine *)

(** The policy [run] gives [start_activity]. *)
Definition politica_envio : Temporal.RetryPolicy :=
  Temporal.mkRetryPolicy 2 2%float 10 3%nat.

(** What [run] asks of the host. *)
Inductive Comando : Type :=
| WaitConditionTimeout (segundos : Z)
| StartActivity (nombre : string) (request : EnvioRequest)
                (start_to_close_timeout : Z) (retry_policy : Temporal.RetryPolicy).

(** Where [run] is suspended, or what it returned. *)
Inductive Fase : Type :=
| EsperaPago                         (* first [wait_condition], with timeout *)
| EsperaEnvio (request : EnvioRequest) (* [await workflow.start_activity] *)
| EsperaEntrega                      (* second [wait_condition] *)
| Terminado (r : ResultadoFinal).    (* [return self._estado_final(..)] *)

Record Instancia : Type := mkInstancia {
  wf : Workflow;
  fase : Fase;
  comandos : list Comando   (* oldest first *)
}.

(** The five signals of the workflow. *)
Inductive Senal : Type :=
| AgregarItem (it : Item)
| RemoverItem (id : string)
| AceptarTerminos
| CompletarCompra
| ConfirmarRecepcion.

Definition manejar_senal (s : Senal) : M unit :=
  match s with
  | AgregarItem it => agregar_item_carrito it
  | RemoverItem id => remover_item_carrito id
  | AceptarTerminos => aceptar_terminos
  | CompletarCompra => completar_compra
  | ConfirmarRecepcion => confirmar_recepcion
  end.

(** What reaches the workflow: a signal, the update, the timer of the first
    wait, and the end of the activity. *)
Inductive Evento : Type :=
| Signal (s : Senal)
| Update (it : Item)
| TimeoutPago
| ActividadCompletada (payload : json)
| ActividadFallida (e : Temporal.ActivityError).

(** [run] up to its first [await]. *)
Definition iniciar (usuario workflow_id : string) : Instancia :=
  let w := Workflow_init in
  let w := mkWorkflow ("carrito-" ++ usuario ++ "-" ++ workflow_id) usuario
                      (terminos_aceptados w) (items_carrito w)
                      (total_carrito w) (estado w) (envio_resultado w) in
  mkInstancia w EsperaPago [WaitConditionTimeout (30 * 60)].

(** [run] resumes from a [wait_condition] as soon as its condition holds. *)
Definition reanudar (i : Instancia) : Instancia :=
  match fase i with
  | EsperaPago =>
      if EstadoCarrito_eqb (estado (wf i)) PAGADO
         || EstadoCarrito_eqb (estado (wf i)) CANCELADO
      then
        if EstadoCarrito_eqb (estado (wf i)) CANCELADO
        then mkInstancia (wf i)
               (Terminado (_estado_final "CANCELADO_POR_USUARIO" (wf i)))
               (comandos i)
        else
          let envio_request :=
            mkEnvioRequest (usuario_id (wf i)) (items_carrito (wf i))
                           direccion_por_defecto in
          mkInstancia (wf i) (EsperaEnvio envio_request)
            (comandos i ++ [StartActivity "despachar_envio_activity"
                                          envio_request 30 politica_envio])
      else i
  | EsperaEntrega =>
      if EstadoCarrito_eqb (estado (wf i)) ENTREGADO
      then mkInstancia (wf i)
             (Terminado (_estado_final "COMPLETADO_ENTREGADO" (wf i)))
             (comandos i)
      else i
  | EsperaEnvio _ | Terminado _ => i
  end.

(** A handler runs on the workflow object, whatever [run] is waiting for. *)
Definition con_handler {A} (m : M A) (i : Instancia) : Instancia :=
  mkInstancia (snd (m (wf i))) (fase i) (comandos i).

(** One event: the handler of a signal or of the update runs, or [run]
    continues after the [await] that the event ends. *)
Definition entregar (ev : Evento) (i : Instancia) : Instancia :=
  match ev with
  | Signal s => con_handler (manejar_senal s) i
  | Update it => con_handler (agregar_item_seguro it) i
  | TimeoutPago =>
      match fase i with
      | EsperaPago =>
          let w := set_estado ABANDONADO (wf i) in
          mkInstancia w (Terminado (_estado_final "ABANDONADO_TIMEOUT" w))
                      (comandos i)
      | _ => i
      end
  | ActividadCompletada payload =>
      match fase i with
      | EsperaEnvio _ =>
          let w := set_estado ENVIADO (set_envio_resultado payload (wf i)) in
          mkInstancia w EsperaEntrega (comandos i)
      | _ => i
      end
  | ActividadFallida e =>
      match fase i with
      | EsperaEnvio _ =>
          let w := set_envio_resultado
                     (JObj [("status", JStr "FALLIDO");
                            ("error", JStr (exn_str (Temporal.cause e)))])
                     (wf i) in
          mkInstancia w (Terminado (_estado_final "ENVIO_FALLIDO" w))
                      (comandos i)
      | _ => i
      end
  end.

(** ... and then [run] is resumed if its condition has come to hold. *)
Definition paso (ev : Evento) (i : Instancia) : Instancia :=
  reanudar (entregar ev i).

Definition ejecutar (evs : list Evento) (i : Instancia) : Instancia :=
  fold_left (fun acc ev => paso ev acc) evs i.

(** The attempts of the activity for [request] against the endpoint [post],
    which gives one answer per attempt. *)
Definition intentos (post : nat -> EnvioRequest -> PostOutcome)
    (request : EnvioRequest) (n : nat) : resultado json :=
  despachar_envio_activity (post n) request.

(** The activity that [run] started, executed by the host under
    [politica_envio], and its end delivered to the workflow. *)
Definition despachar (post : nat -> EnvioRequest -> PostOutcome)
    (request : EnvioRequest) : Temporal.Execution :=
  Temporal.execute_activity (intentos post request) politica_envio.


Definition evento_de_actividad (x : Temporal.Execution) : Evento :=
  match Temporal.outcome x with
  | inl payload => ActividadCompletada payload
  | inr e => ActividadFallida e
  end.

Definition resolver_envio (post : nat -> EnvioRequest -> PostOutcome)
    (i : Instancia) : Instancia :=
  match fase i with
  | EsperaEnvio request => paso (evento_de_actividad (despachar post request)) i
  | _ => i
  end.

(** * Properties *)

(** ** What the specification speaks of *)

(** [unit_price * quantity] of a stored line. *)
Definition subtotal_esperado (l : Linea) : option float :=
  option_map (PrimFloat.mul (linea_precio l)) (float_of_int (linea_cantidad l)).

Definition subtotal_al_dia (l : Linea) : Prop :=
  subtotal_esperado l = Some (linea_subtotal l).

(** [sum(line.subtotal for line in items)] *)
Definition suma_subtotales (w : Workflow) : pynum :=
  py_sum (map linea_subtotal (Dict.values (items_carrito w))).

(** [total == sum(line.subtotal for line in items)], as numbers. *)
Definition total_al_dia (w : Workflow) : Prop :=
  same_number (total_carrito w) (suma_subtotales w).

(** The status classes of a response. *)
Definition es_4xx (r : Response) : bool :=
  (400 <=? status_code r) && (status_code r <? 500).

Definition es_5xx (r : Response) : bool :=
  (500 <=? status_code r) && (status_code r <? 600).

(** The state a signal requires (the gate table of the dispatcher). *)
Definition puerta (s : Senal) (w : Workflow) : bool :=
  match s with
  | AgregarItem _ | RemoverItem _ | AceptarTerminos =>
      EstadoCarrito_eqb (estado w) ABIERTO
  | CompletarCompra =>
      EstadoCarrito_eqb (estado w) ABIERTO && terminos_aceptados w
  | ConfirmarRecepcion => EstadoCarrito_eqb (estado w) ENVIADO
  end.

(** The edges of the lifecycle graph. *)
Definition transicion (a b : EstadoCarrito) : bool :=
  match a, b with
  | ABIERTO, PAGADO | ABIERTO, CANCELADO | ABIERTO, ABANDONADO
  | PAGADO, ENVIADO | ENVIADO, ENTREGADO => true
  | _, _ => false
  end.

(** ABANDONED, DELIVERED, CANCELLED, or [run] ended on a failed shipment. *)
Definition es_terminal (i : Instancia) : bool :=
  match estado (wf i) with
  | ABANDONADO | ENTREGADO | CANCELADO => true
  | _ =>
      match fase i with
      | Terminado r => String.eqb (r_resultado_workflow r) "ENVIO_FALLIDO"
      | _ => false
      end
  end.

(** What the caller of the workflow can read off the final record of a
    failed shipment: whether its [error] text names the type that the
    activity gives the rejection of a 4xx response. *)
Definition es_rechazo_de_politica (r : ResultadoFinal) : bool :=
  match r_detalles_envio r with
  | JObj fields =>
      match Dict.get "error" fields with
      | Some (JStr m) => String.prefix "NonRetryableAPIError: " m
      | _ => false
      end
  | _ => false
  end.

(** The item commands of the cart, applied in order. *)
Inductive ItemCmd : Type :=
| Add (it : Item)
| Remove (id : string).

Definition aplicar_cmd (c : ItemCmd) (w : Workflow) : Workflow :=
  match c with
  | Add it => snd (agregar_item_carrito it w)
  | Remove id => snd (remover_item_carrito id w)
  end.

Definition aplicar (cs : list ItemCmd) (w : Workflow) : Workflow :=
  fold_left (fun acc c => aplicar_cmd c acc) cs w.

(** ** Inputs used in the examples *)

Definition cafe : Item := mkItem "sku-1" "cafe" 10%float 1.
Definition te : Item := mkItem "sku-2" "te" 2.5%float 3.

(** A quantity below every binary64 number. *)
Definition lingote : Item := mkItem "sku-9" "lingote" 10%float (- 2 ^ 1024).

(** A cart with one item, the terms accepted and the purchase completed:
    [run] has started the activity and waits for it. *)
Definition compra_pagada : Instancia :=
  ejecutar [Signal (AgregarItem cafe); Signal AceptarTerminos;
            Signal CompletarCompra]
           (iniciar "ana" "terminos-workflow-ana").

(** An endpoint that cannot be reached, whatever the attempt, and whose
    transport error reads like the text the activity gives a rejection. *)
Definition red_caida : nat -> EnvioRequest -> PostOutcome :=
  fun _ _ => TransportFailed "Error de API no reintentable: boom".

(** Endpoints that answer 400, or 503, at every attempt. *)
Definition respuesta_400 : Response :=
  mkResponse 400 "boom" "Client error '400 Bad Request'" None.

Definition respuesta_503 : Response :=
  mkResponse 503 "no disponible" "Server error '503 Service Unavailable'" None.

Definition rechazo_400 : nat -> EnvioRequest -> PostOutcome :=
  fun _ _ => Responded respuesta_400.

Definition caido_503 : nat -> EnvioRequest -> PostOutcome :=
  fun _ _ => Responded respuesta_503.

(** ** What holds of [estado] at each point of [run] *)

(** Between two events. *)
Definition invariante (i : Instancia) : Prop :=
  match fase i with
  | EsperaPago =>
      estado (wf i) = ABIERTO
      /\ envio_resultado (wf i) = JObj []
      /\ comandos i = [WaitConditionTimeout (30 * 60)]
  | EsperaEnvio _ => estado (wf i) = PAGADO
  | EsperaEntrega => estado (wf i) = ENVIADO
  | Terminado _ => estado (wf i) <> ABIERTO /\ estado (wf i) <> ENVIADO
  end.

(** After the handler of an event and before [run] is resumed. *)
Definition invariante_previo (i : Instancia) : Prop :=
  match fase i with
  | EsperaPago =>
      (estado (wf i) = ABIERTO \/ estado (wf i) = PAGADO)
      /\ envio_resultado (wf i) = JObj []
      /\ comandos i = [WaitConditionTimeout (30 * 60)]
  | EsperaEnvio _ => estado (wf i) = PAGADO
  | EsperaEntrega => estado (wf i) = ENVIADO \/ estado (wf i) = ENTREGADO
  | Terminado _ => estado (wf i) <> ABIERTO /\ estado (wf i) <> ENVIADO
  end.

(** ** More of what [run] keeps *)

(** The keys of a dictionary, in insertion order. *)
Definition claves {V} (d : Dict.dict V) : list string := map fst d.

(** The request [run] builds when the cart is paid, and the command that
    starts the activity with it. *)
Definition solicitud_de (w : Workflow) : EnvioRequest :=
  mkEnvioRequest (usuario_id w) (items_carrito w) direccion_por_defecto.

Definition comando_envio (w : Workflow) : Comando :=
  StartActivity "despachar_envio_activity" (solicitud_de w) 30 politica_envio.

Definition envio_fallido (m : string) : json :=
  JObj [("status", JStr "FALLIDO"); ("error", JStr m)].

(** What holds between two events of the instance that [run] started for
    [usuario] under [workflow_id]: identifiers, state, commands issued and
    result, at each point of [run]. *)
Definition invariante_fuerte (usuario workflow_id : string) (i : Instancia)
  : Prop :=
  carrito_id (wf i) = "carrito-" ++ usuario ++ "-" ++ workflow_id
  /\ usuario_id (wf i) = usuario
  /\ match fase i with
     | EsperaPago =>
         estado (wf i) = ABIERTO
         /\ envio_resultado (wf i) = JObj []
         /\ comandos i = [WaitConditionTimeout 1800]
     | EsperaEnvio request =>
         estado (wf i) = PAGADO
         /\ envio_resultado (wf i) = JObj []
         /\ request = solicitud_de (wf i)
         /\ comandos i = [WaitConditionTimeout 1800; comando_envio (wf i)]
     | EsperaEntrega =>
         estado (wf i) = ENVIADO
         /\ comandos i = [WaitConditionTimeout 1800; comando_envio (wf i)]
     | Terminado r =>
         (estado (wf i) = ABANDONADO
          /\ r = _estado_final "ABANDONADO_TIMEOUT" (wf i)
          /\ envio_resultado (wf i) = JObj []
          /\ comandos i = [WaitConditionTimeout 1800])
         \/ (estado (wf i) = PAGADO
             /\ r = _estado_final "ENVIO_FALLIDO" (wf i)
             /\ (exists m, envio_resultado (wf i) = envio_fallido m)
             /\ comandos i = [WaitConditionTimeout 1800; comando_envio (wf i)])
         \/ (estado (wf i) = ENTREGADO
             /\ r = _estado_final "COMPLETADO_ENTREGADO" (wf i)
             /\ comandos i = [WaitConditionTimeout 1800; comando_envio (wf i)])
     end.

(** ** api_gateway/service.py: the simulated shipment endpoint *)

Module Gateway.

(** What the handler of [/envio/despachar] raises: the [HTTPException] it
    builds itself, or the error of an operation on a value of the wrong
    type. *)
Inductive error : Type :=
| HTTPException (status_code : Z) (detail : string)
| TypeError
| AttributeError.

(** The body of the request as pydantic hands it over: [items] is any
    dictionary (a JSON object, its keys distinct). *)
Record EnvioRequest : Type := mkEnvioRequest {
  req_usuario_id : string;
  req_items : Dict.dict json;
  req_direccion : string
}.

(** The module's [failure_state]: calls counted per user. *)
Definition FailureState : Type := Dict.dict Z.

(** [v > 10] for a value read from JSON; [None] stands for TypeError. *)
Definition gt_10 (v : json) : option bool :=
  match v with
  | JInt z => Some (10 <? z)
  | JFloat f => Some (PrimFloat.ltb 10%float f)
  | JBool _ => Some false
  | JNull | JStr _ | JArr _ | JObj _ => None
  end.

(** The loop over [request.items.items()]: the first line that stops it. *)
Fixpoint revisar_cantidades (items : Dict.dict json) : option error :=
  match items with
  | [] => None
  | (item_id, item_details) :: rest =>
      match item_details with
      | JObj fields =>
          let cantidad :=
            match Dict.get "cantidad" fields with
            | Some v => v
            | None => JInt 0
            end in
          match gt_10 cantidad with
          | Some true =>
              Some (HTTPException 400
                      ("Pedido inválido: Cantidad para " ++ item_id
                       ++ " excede el límite de 10."))
          | Some false => revisar_cantidades rest
          | None => Some TypeError
          end
      | _ => Some AttributeError
      end
  end.

Definition envio_programado (request : EnvioRequest) : json :=
  JObj [("status", JStr "envio_programado");
        ("tracking_id", JStr ("TRK-" ++ req_usuario_id request ++ "-999"));
        ("items_despachados", JInt (Z.of_nat (List.length (req_items request))))].

Definition despachar_envio (request : EnvioRequest) (failure_state : FailureState)
  : (json + error) * FailureState :=
  match revisar_cantidades (req_items request) with
  | Some e => (inr e, failure_state)
  | None =>
      let user_attempts :=
        match Dict.get (req_usuario_id request) failure_state with
        | Some n => n
        | None => 0
        end in
      let failure_state :=
        Dict.set (req_usuario_id request) (user_attempts + 1) failure_state in
      if user_attempts =? 0 then
        (inr (HTTPException 503 "Servicio de envío no disponible temporalmente"),
         failure_state)
      else
        let failure_state :=
          if Dict.mem (req_usuario_id request) failure_state
          then Dict.del (req_usuario_id request) failure_state
          else failure_state in
        (inl (envio_programado request), failure_state)
  end.

End Gateway.

(** The JSON body the activity posts for a request of the workflow
    ([request.__dict__]): every line as the dictionary the cart stores. *)
Definition linea_json (l : Linea) : json :=
  JObj [("nombre", JStr (linea_nombre l));
        ("precio", JFloat (linea_precio l));
        ("cantidad", JInt (linea_cantidad l));
        ("subtotal", JFloat (linea_subtotal l))].

Definition cuerpo_de (request : EnvioRequest) : Gateway.EnvioRequest :=
  Gateway.mkEnvioRequest
    (envio_usuario_id request)
    (map (fun kv => (fst kv, linea_json (snd kv))) (envio_items request))
    (envio_direccion request).

(** The first line of a cart with more than 10 units, if any. *)
Fixpoint primera_sobre_10 (d : Dict.dict Linea) : option string :=
  match d with
  | [] => None
  | (k, l) :: rest => if 10 <? linea_cantidad l then Some k else primera_sobre_10 rest
  end.

(** ** control_plane/service.py *)

From Stdlib Require DecimalString.

Module ControlPlane.

(** The exceptions of the arithmetic on clock readings, with their text. *)
Inductive error : Type :=
| ValueError (message : string)
| OverflowError (message : string)
| TypeError (message : string).


(** [int(x)] for a float: towards zero; NaN and the infinities raise. *)
Definition int_of_float (x : float) : Z + error :=
  match Prim2SF x with
  | S754_zero _ => inl 0
  | S754_infinity _ =>
      inr (OverflowError "cannot convert float infinity to integer")
  | S754_nan => inr (ValueError "cannot convert float NaN to integer")
  | S754_finite s m e =>
      let a := if 0 <=? e then Z.pos m * 2 ^ e else Z.pos m / 2 ^ (- e) in
      inl (if s then - a else a)
  end.

(** [z > x] for an int and a float, which Python decides exactly. *)
Definition int_gt_float (z : Z) (x : float) : bool :=
  match Prim2SF x with
  | S754_zero _ => 0 <? z
  | S754_infinity s => s
  | S754_nan => false
  | S754_finite s m e =>
      let v := if s then Z.neg m else Z.pos m in
      if 0 <=? e then v * 2 ^ e <? z else v <? z * 2 ^ (- e)
  end.

(** [str(z)] *)
Definition str_int (z : Z) : string :=
  DecimalString.NilZero.string_of_int (Z.to_int z).

(** [l[start:]] *)
Definition slice_from {A} (start : Z) (l : list A) : list A :=
  let n := Z.of_nat (List.length l) in
  let s := if start <? 0 then Z.max (start + n) 0 else Z.min start n in
  skipn (Z.to_nat s) l.

Record Alert : Type := mkAlert {
  alert_id : string;
  alert_component : string;
  alert_status : string;
  alert_message : string;
  alert_created_at : float
}.

(** [_state["workers"]], which always has these three keys; an entry is
    the dictionary of one worker. *)
Record Workers : Type := mkWorkers {
  workers_status : string;
  workers_checked_at : option float;
  workers_entries : Dict.dict (Dict.dict json)
}.

(** The module's [_state], and the number of times the clock was read. *)
Record State : Type := mkState {
  temporal : Dict.dict json;
  gateway : Dict.dict json;
  workers : Workers;
  last_run_at : option float;
  alerts : list Alert;
  component_status : Dict.dict string;
  lecturas : nat
}.

Definition State_init : State :=
  mkState [("status", JStr "unknown"); ("checked_at", JNull)]
          [("status", JStr "unknown"); ("checked_at", JNull)]
          (mkWorkers "unknown" None [])
          None [] [] 0.

Definition set_temporal (d : Dict.dict json) (st : State) : State :=
  mkState d (gateway st) (workers st) (last_run_at st) (alerts st)
          (component_status st) (lecturas st).

Definition set_gateway (d : Dict.dict json) (st : State) : State :=
  mkState (temporal st) d (workers st) (last_run_at st) (alerts st)
          (component_status st) (lecturas st).

Definition set_workers (w : Workers) (st : State) : State :=
  mkState (temporal st) (gateway st) w (last_run_at st) (alerts st)
          (component_status st) (lecturas st).

Definition set_last_run_at (t : option float) (st : State) : State :=
  mkState (temporal st) (gateway st) (workers st) t (alerts st)
          (component_status st) (lecturas st).

Definition set_alerts (l : list Alert) (st : State) : State :=
  mkState (temporal st) (gateway st) (workers st) (last_run_at st) l
          (component_status st) (lecturas st).

Definition set_component_status (d : Dict.dict string) (st : State) : State :=
  mkState (temporal st) (gateway st) (workers st) (last_run_at st) (alerts st)
          d (lecturas st).

(** A function of the module: it works on [_state] and returns or raises. *)
Definition CP (A : Type) : Type := State -> (A + error) * State.

Definition cp_ret {A} (a : A) : CP A := fun st => (inl a, st).

Definition cp_raise {A} (e : error) : CP A := fun st => (inr e, st).

Definition cp_bind {A B} (m : CP A) (k : A -> CP B) : CP B :=
  fun st =>
    match m st with
    | (inl a, st') => k a st'
    | (inr e, st') => (inr e, st')
    end.

Definition cp_lift {A} (r : A + error) : CP A := fun st => (r, st).

Definition cp_get : CP State := fun st => (inl st, st).

Definition cp_modify (f : State -> State) : CP unit := fun st => (inl tt, f st).

Declare Scope cp_scope.
Delimit Scope cp_scope with cp.
Notation "x <~ m ;;; k" := (cp_bind m (fun x => k))
  (at level 61, m at next level, right associativity) : cp_scope.
Notation "m ;;; k" := (cp_bind m (fun _ => k))
  (at level 61, right associativity) : cp_scope.
Local Open Scope cp_scope.

Section Config.

(** The settings read from the environment when the module is loaded, and
    the clock: what the n-th call of [time.time()] returns. *)
Variable ALERT_HISTORY_MAX : Z.
Variable WORKER_TTL_SEC : float.
Variable GATEWAY_URL : string.
Variable time_time : nat -> float.

Definition _now : CP float :=
  fun st =>
    (inl (time_time (lecturas st)),
     mkState (temporal st) (gateway st) (workers st) (last_run_at st)
             (alerts st) (component_status st) (S (lecturas st))).

Definition _record_alert (component status message : string) : CP unit :=
  t_id <~ _now ;;;
  n <~ cp_lift (int_of_float t_id) ;;;
  created_at <~ _now ;;;
  let alert := mkAlert (component ++ "-" ++ str_int n) component status
                       message created_at in
  cp_modify (fun st => set_alerts (alerts st ++ [alert])%list st) ;;;
  st <~ cp_get ;;;
  if ALERT_HISTORY_MAX <? Z.of_nat (List.length (alerts st))
  then cp_modify (set_alerts (slice_from (- ALERT_HISTORY_MAX) (alerts st)))
  else cp_ret tt.

(** The alert [_record_alert] builds in state [st] when the clock reads as
    the integer [n]. *)
Definition alerta_nueva (component status message : string) (st : State)
    (n : Z) : Alert :=
  mkAlert (component ++ "-" ++ str_int n) component status message
          (time_time (S (lecturas st))).

Definition _update_component_status (component status message : string)
  : CP unit :=
  st <~ cp_get ;;;
  let previous := Dict.get component (component_status st) in
  let changed :=
    match previous with
    | Some p => negb (String.eqb p status)
    | None => true
    end in
  if changed then
    _record_alert component status message ;;;
    cp_modify (fun st =>
      set_component_status (Dict.set component status (component_status st)) st)
  else cp_ret tt.

(** [d.get("status") == "ok"] *)
Definition status_ok (d : Dict.dict json) : bool :=
  match Dict.get "status" d with
  | Some (JStr s) => String.eqb s "ok"
  | _ => false
  end.

Record Snapshot : Type := mkSnapshot {
  snap_overall : string;
  snap_temporal : Dict.dict json;
  snap_gateway : Dict.dict json;
  snap_workers : Workers;
  snap_alerts : list Alert;
  snap_last_run_at : option float
}.

Definition _build_snapshot (st : State) : Snapshot :=
  let temporal_ok := status_ok (temporal st) in
  let gateway_ok := status_ok (gateway st) in
  let workers_ok := String.eqb (workers_status (workers st)) "ok" in
  let overall :=
    if temporal_ok && gateway_ok && workers_ok then "ok" else "degraded" in
  mkSnapshot overall (temporal st) (gateway st) (workers st)
             (slice_from (-10) (alerts st)) (last_run_at st).

(** [None if last_seen is None else int(now - last_seen)] *)
Definition age_of (now : float) (details : Dict.dict json) : option Z + error :=
  let sub (y : float) :=
    match int_of_float (PrimFloat.sub now y) with
    | inl a => inl (Some a)
    | inr e => inr e
    end in
  match Dict.get "last_seen" details with
  | None | Some JNull => inl None
  | Some (JFloat y) => sub y
  | Some (JInt z) =>
      match float_of_int z with
      | Some y => sub y
      | None => inr (OverflowError "int too large to convert to float")
      end
  | Some (JBool b) => sub (if b then 1%float else 0%float)
  | Some (JStr _) =>
      inr (TypeError "unsupported operand type(s) for -: 'float' and 'str'")
  | Some (JArr _) =>
      inr (TypeError "unsupported operand type(s) for -: 'float' and 'list'")
  | Some (JObj _) =>
      inr (TypeError "unsupported operand type(s) for -: 'float' and 'dict'")
  end.

Definition is_stale_of (age : option Z) : bool :=
  match age with
  | Some a => int_gt_float a WORKER_TTL_SEC
  | None => false
  end.

(** [{**details, "age_sec": age, "stale": is_stale}] *)
Definition evaluated_entry (details : Dict.dict json) (age : option Z)
  : Dict.dict json :=
  Dict.set "stale" (JBool (is_stale_of age))
    (Dict.set "age_sec" (match age with Some a => JInt a | None => JNull end)
              details).

(** The loop of [_evaluate_workers] over [entries.items()], with
    [evaluated] and [degraded] as it has them so far. *)
Fixpoint evaluate_loop (now : float) (entries : Dict.dict (Dict.dict json))
    (evaluated : Dict.dict (Dict.dict json)) (degraded : bool)
  : (Dict.dict (Dict.dict json) * bool) + error :=
  match entries with
  | [] => inl (evaluated, degraded)
  | (worker_key, details) :: rest =>
      match age_of now details with
      | inr e => inr e
      | inl age =>
          evaluate_loop now rest
            (Dict.set worker_key (evaluated_entry details age) evaluated)
            (if is_stale_of age then true else degraded)
      end
  end.

Record WorkerEval : Type := mkWorkerEval {
  eval_status : string;
  eval_entries : Dict.dict (Dict.dict json)
}.

Definition _evaluate_workers : CP WorkerEval :=
  st <~ cp_get ;;;
  let entries := workers_entries (workers st) in
  now <~ _now ;;;
  match entries with
  | [] => cp_ret (mkWorkerEval "unknown" [])
  | _ =>
      r <~ cp_lift (evaluate_loop now entries [] false) ;;;
      cp_ret (mkWorkerEval (if snd r then "degraded" else "ok") (fst r))
  end.

Record WorkerHeartbeat : Type := mkWorkerHeartbeat {
  hb_task_queue : string;
  hb_worker_id : string;
  hb_version : option string;
  hb_metadata : option (list (string * json))
}.

Definition heartbeat_key (payload : WorkerHeartbeat) : string :=
  hb_task_queue payload ++ ":" ++ hb_worker_id payload.

Definition workers_heartbeat (payload : WorkerHeartbeat) : CP (Dict.dict json) :=
  last_seen <~ _now ;;;
  let entry :=
    [("task_queue", JStr (hb_task_queue payload));
     ("worker_id", JStr (hb_worker_id payload));
     ("version", match hb_version payload with
                 | Some v => JStr v
                 | None => JNull
                 end);
     ("metadata", match hb_metadata payload with
                  | Some m => JObj m
                  | None => JObj []
                  end);
     ("last_seen", JFloat last_seen)] in
  cp_modify (fun st =>
    set_workers
      (mkWorkers (workers_status (workers st))
                 (workers_checked_at (workers st))
                 (Dict.set (heartbeat_key payload) entry
                           (workers_entries (workers st)))) st) ;;;
  cp_ret [("status", JStr "ok")].



(** What a check returns: its ["status"] and the other keys after it. *)
Record CheckResult : Type := mkCheckResult {
  check_status : string;
  check_rest : Dict.dict json
}.

Definition check_dict (r : CheckResult) : Dict.dict json :=
  ("status", JStr (check_status r)) :: check_rest r.

(** One turn of the loop of [collector_loop], from the results of the two
    checks to the [sleep]. *)
Definition collector_turn (temporal_result gateway_result : CheckResult)
  : CP unit :=
  t1 <~ _now ;;;
  cp_modify (set_temporal (Dict.set "checked_at" (JFloat t1)
                                    (check_dict temporal_result))) ;;;
  t2 <~ _now ;;;
  cp_modify (set_gateway (Dict.set "checked_at" (JFloat t2)
                                   (check_dict gateway_result))) ;;;
  worker_eval <~ _evaluate_workers ;;;
  t3 <~ _now ;;;
  cp_modify (set_workers (mkWorkers (eval_status worker_eval) (Some t3)
                                    (eval_entries worker_eval))) ;;;
  _update_component_status "temporal" (check_status temporal_result)
    ("Temporal status: " ++ check_status temporal_result) ;;;
  _update_component_status "gateway" (check_status gateway_result)
    ("Gateway status: " ++ check_status gateway_result) ;;;
  _update_component_status "workers" (eval_status worker_eval)
    ("Workers status: " ++ eval_status worker_eval) ;;;
  t4 <~ _now ;;;
  cp_modify (set_last_run_at (Some t4)).

End Config.

End ControlPlane.

(** A clock that stands still, and a worker, for the examples. *)
Definition reloj_fijo : nat -> float := fun _ => 1000.5%float.

Definition latido : ControlPlane.WorkerHeartbeat :=
  ControlPlane.mkWorkerHeartbeat "cola" "w1" (Some "dev") None.

(** ** States and dictionaries *)

Lemma EstadoCarrito_eqb_eq (a b : EstadoCarrito) :
  EstadoCarrito_eqb a b = true <-> a = b.
Proof. destruct a, b; simpl; split; congruence. Qed.

Lemma EstadoCarrito_eqb_neq (a b : EstadoCarrito) :
  EstadoCarrito_eqb a b = false <-> a <> b.
Proof. destruct a, b; simpl; split; congruence. Qed.

Lemma dict_get_del_same {V} (k : string) (d : Dict.dict V) :
  Dict.get k (Dict.del k d) = None.
Proof.
  induction d as [|[k' v] d IH]; simpl; [reflexivity|].
  destruct (String.eqb k k') eqn:E; simpl; [exact IH|].
  rewrite E. exact IH.
Qed.

Lemma dict_del_absent {V} (k : string) (d : Dict.dict V) :
  Dict.get k d = None -> Dict.del k d = d.
Proof.
  induction d as [|[k' v] d IH]; simpl; [reflexivity|].
  destruct (String.eqb k k') eqn:E; simpl; [discriminate|].
  intros H. now rewrite (IH H).
Qed.

Lemma dict_get_set_same {V} (k : string) (v : V) (d : Dict.dict V) :
  Dict.get k (Dict.set k v d) = Some v.
Proof.
  induction d as [|[k' v'] d IH]; simpl.
  - now rewrite String.eqb_refl.
  - destruct (String.eqb k k') eqn:E; simpl; rewrite E; [reflexivity|exact IH].
Qed.

(** ** Conversion of an [int] to a [float] *)

(** [int_max_float] is where rounding leaves the binary64 range: the integer
    just below it rounds to the largest float, the bound itself to
    infinity. *)
Lemma int_max_float_bound :
  float_of_int (int_max_float - 1) = Some 0x1.fffffffffffffp+1023%float
  /\ SF2Prim (binary_normalize prec emax int_max_float 0 false) = infinity
  /\ float_of_int int_max_float = None
  /\ float_of_int (- int_max_float) = None.
Proof. repeat split; vm_compute; reflexivity. Qed.

(** ** The handlers, case by case *)

Lemma agregar_item_carrito_cerrado (it : Item) (w : Workflow) :
  estado w <> ABIERTO -> agregar_item_carrito it w = (Ok tt, w).
Proof.
  intros H. apply EstadoCarrito_eqb_neq in H.
  unfold agregar_item_carrito, bind, self. now rewrite H.
Qed.

(** The three ways [agregar_item_carrito] goes on an open cart. *)
Lemma agregar_item_carrito_abierto (it : Item) (w : Workflow) :
  estado w = ABIERTO ->
  agregar_item_carrito it w =
    match Dict.get (item_id it) (items_carrito w) with
    | Some l =>
        let d := Dict.set (item_id it) (sumar_cantidad (cantidad it) l)
                          (items_carrito w) in
        (Ok tt, set_total_carrito
                  (py_sum (map linea_subtotal (Dict.values d)))
                  (set_items_carrito d w))
    | None =>
        match float_of_int (cantidad it) with
        | Some q =>
            let d := Dict.set (item_id it)
                       (mkLinea (nombre it) (precio it) (cantidad it)
                                (PrimFloat.mul (precio it) q))
                       (items_carrito w) in
            (Ok tt, set_total_carrito
                      (py_sum (map linea_subtotal (Dict.values d)))
                      (set_items_carrito d w))
        | None => (Raise OverflowError, w)
        end
    end.
Proof.
  intros H. unfold agregar_item_carrito, bind, self. rewrite H. simpl.
  destruct (Dict.get (item_id it) (items_carrito w)) as [l|]; simpl.
  - reflexivity.
  - unfold float_mul_int. destruct (float_of_int (cantidad it)); reflexivity.
Qed.

Lemma remover_item_carrito_cases (id : string) (w : Workflow) :
  remover_item_carrito id w =
    if EstadoCarrito_eqb (estado w) ABIERTO && Dict.mem id (items_carrito w)
    then
      let d := Dict.del id (items_carrito w) in
      (Ok tt, set_total_carrito
                (py_sum (map linea_subtotal (Dict.values d)))
                (set_items_carrito d w))
    else (Ok tt, w).
Proof.
  unfold remover_item_carrito, bind, self.
  destruct (EstadoCarrito_eqb (estado w) ABIERTO); simpl; [|reflexivity].
  destruct (Dict.mem id (items_carrito w)); reflexivity.
Qed.

(** No handler of an item command touches [estado]. *)
Lemma agregar_item_carrito_estado (it : Item) (w : Workflow) :
  estado (snd (agregar_item_carrito it w)) = estado w.
Proof.
  destruct (EstadoCarrito_eqb (estado w) ABIERTO) eqn:E.
  - apply EstadoCarrito_eqb_eq in E.
    rewrite (agregar_item_carrito_abierto it w E).
    destruct (Dict.get _ _); [reflexivity|].
    destruct (float_of_int _); reflexivity.
  - apply EstadoCarrito_eqb_neq in E.
    now rewrite (agregar_item_carrito_cerrado it w E).
Qed.

Lemma remover_item_carrito_estado (id : string) (w : Workflow) :
  estado (snd (remover_item_carrito id w)) = estado w.
Proof.
  rewrite remover_item_carrito_cases.
  destruct (_ && _); reflexivity.
Qed.

(** ** Line subtotals *)

(** The branch of [agregar_item_carrito] for a new key stores the product of
    the price and the quantity it stores. *)
Lemma agregar_item_carrito_nuevo_al_dia (it : Item) (w w' : Workflow) :
  estado w = ABIERTO ->
  Dict.get (item_id it) (items_carrito w) = None ->
  agregar_item_carrito it w = (Ok tt, w') ->
  exists l, Dict.get (item_id it) (items_carrito w') = Some l
            /\ subtotal_al_dia l.
Proof.
  intros Ha Hn. rewrite (agregar_item_carrito_abierto it w Ha), Hn.
  destruct (float_of_int (cantidad it)) as [q|] eqn:Hq; [|discriminate].
  intros H. injection H as <-. simpl.
  eexists. split; [apply dict_get_set_same|].
  unfold subtotal_al_dia, subtotal_esperado. simpl. now rewrite Hq.
Qed.

(** C1, on the code: adding the item [cafe] (price 10.0, quantity 1) twice
    leaves one line with quantity 2 whose stored subtotal is still 10.0,
    while price times quantity is 20.0: the branch that merges quantities
    does not recompute the subtotal. *)
Theorem agregar_item_carrito_merge_stale_subtotal :
  let w := aplicar [Add cafe; Add cafe] Workflow_init in
  exists l,
    Dict.get "sku-1" (items_carrito w) = Some l
    /\ linea_cantidad l = 2
    /\ linea_subtotal l = 10%float
    /\ subtotal_esperado l = Some 20%float
    /\ ~ subtotal_al_dia l
    /\ total_carrito w = PFloat 10%float.
Proof.
  eexists. split; [vm_compute; reflexivity|].
  repeat split; try (vm_compute; reflexivity).
  unfold subtotal_al_dia. vm_compute. intros H. discriminate H.
Qed.

(** ** The validated mutation *)

(** C2: [agregar_item_seguro] on a cart that is not ABIERTO raises the
    untyped ApplicationError that names the state (the rejection the
    specification calls InvalidState); on an open cart with a quantity above
    5 it raises the ApplicationError of type StockInsuficiente; in both cases
    the workflow object is left as it was. *)
Theorem agregar_item_seguro_rechazos (it : Item) (w : Workflow) :
  (estado w <> ABIERTO ->
   agregar_item_seguro it w =
     (Raise (ApplicationError (mensaje_estado_invalido (estado w)) None false),
      w))
  /\ (estado w = ABIERTO -> 5 < cantidad it ->
      agregar_item_seguro it w =
        (Raise (ApplicationError (mensaje_stock_insuficiente (nombre it))
                                 (Some "StockInsuficiente") false),
         w)).
Proof.
  split.
  - intros H. apply EstadoCarrito_eqb_neq in H.
    unfold agregar_item_seguro, bind, self, raise. now rewrite H.
  - intros H Hq. apply Z.ltb_lt in Hq.
    unfold agregar_item_seguro, bind, self, raise. rewrite H. simpl.
    now rewrite Hq.
Qed.

Lemma agregar_item_seguro_rechazos_witness :
  agregar_item_seguro cafe (set_estado PAGADO Workflow_init) =
    (Raise (ApplicationError (mensaje_estado_invalido PAGADO) None false),
     set_estado PAGADO Workflow_init)
  /\ agregar_item_seguro (mkItem "sku-1" "cafe" 10%float 6) Workflow_init =
       (Raise (ApplicationError (mensaje_stock_insuficiente "cafe")
                                (Some "StockInsuficiente") false),
        Workflow_init).
Proof.
  split.
  - apply (agregar_item_seguro_rechazos cafe (set_estado PAGADO Workflow_init)).
    simpl. discriminate.
  - apply (agregar_item_seguro_rechazos (mkItem "sku-1" "cafe" 10%float 6)
                                        Workflow_init).
    + reflexivity.
    + simpl. lia.
Defined.

Lemma agregar_item_seguro_pasa (it : Item) (w : Workflow) :
  estado w = ABIERTO -> cantidad it <= 5 ->
  agregar_item_seguro it w =
    match agregar_item_carrito it w with
    | (Ok _, w') =>
        (Ok (mkItemAgregado "Item agregado correctamente" (nombre it)
                            (total_carrito w')), w')
    | (Raise e, w') => (Raise e, w')
    end.
Proof.
  intros H Hq. apply Z.ltb_ge in Hq.
  unfold agregar_item_seguro at 1. unfold bind at 1. unfold self at 1.
  rewrite H. simpl. rewrite Hq. unfold bind at 1.
  destruct (agregar_item_carrito it w) as [[[]|e] w']; reflexivity.
Qed.

(** Outside the quantities of the data model: on the open, empty cart the
    update with quantity [-2^1024] raises OverflowError from the product of
    price and quantity, as the signal does, and the cart is unchanged. *)
Lemma agregar_item_seguro_overflow :
  estado Workflow_init = ABIERTO
  /\ cantidad lingote <= 5
  /\ agregar_item_seguro lingote Workflow_init
     = (Raise OverflowError, Workflow_init)
  /\ agregar_item_carrito lingote Workflow_init
     = (Raise OverflowError, Workflow_init).
Proof.
  split; [reflexivity|]. split; [vm_compute; discriminate|].
  split; vm_compute; reflexivity.
Qed.

(** The signal on an open cart raises only for a new id whose quantity is
    too far below zero for the product with the price. *)
Lemma agregar_item_carrito_abierto_ok (it : Item) (w : Workflow) :
  estado w = ABIERTO ->
  - int_max_float < cantidad it
  \/ Dict.get (item_id it) (items_carrito w) <> None ->
  cantidad it <= 5 ->
  fst (agregar_item_carrito it w) = Ok tt.
Proof.
  intros H Hc Hq. rewrite (agregar_item_carrito_abierto it w H).
  destruct (Dict.get (item_id it) (items_carrito w)) as [l|]; [reflexivity|].
  destruct Hc as [Hlo|Hc]; [|congruence].
  assert (H5 : 5 < int_max_float) by (vm_compute; reflexivity).
  assert (Hb : (Z.abs (cantidad it) <? int_max_float) = true)
    by (apply Z.ltb_lt; lia).
  unfold float_of_int. rewrite Hb. reflexivity.
Qed.

(** C9: on an open cart and for a quantity of at most 5, the update
    [agregar_item_seguro] leaves the workflow object exactly as the signal
    [agregar_item_carrito] leaves it for the same item (its lines and its
    total among the rest) and ends as the signal ends; whenever the signal
    returns, the update returns the success payload whose [nuevo_total] is
    the new total; and the signal returns for every quantity of the data
    model (at least 1), as for every item whose id is already in the cart. *)
Theorem agregar_item_seguro_como_senal (it : Item) (w : Workflow) :
  estado w = ABIERTO -> cantidad it <= 5 ->
  exists r w',
    agregar_item_carrito it w = (r, w')
    /\ snd (agregar_item_seguro it w) = w'
    /\ (forall e, r = Raise e -> agregar_item_seguro it w = (Raise e, w'))
    /\ (r = Ok tt ->
        agregar_item_seguro it w =
          (Ok (mkItemAgregado "Item agregado correctamente" (nombre it)
                              (total_carrito w')), w'))
    /\ (1 <= cantidad it -> r = Ok tt)
    /\ (Dict.get (item_id it) (items_carrito w) <> None -> r = Ok tt).
Proof.
  intros H Hq.
  pose proof (agregar_item_seguro_pasa it w H Hq) as Hs.
  pose proof (agregar_item_carrito_abierto_ok it w H) as Hok.
  destruct (agregar_item_carrito it w) as [r w'] eqn:E.
  exists r, w'. split; [reflexivity|].
  simpl in Hok.
  destruct r as [[]|e0]; rewrite Hs; simpl.
  - split; [reflexivity|]. split; [discriminate|]. auto.
  - split; [reflexivity|].
    split; [intros e He; injection He as <-; reflexivity|].
    split; [discriminate|].
    split.
    + intros H1. apply Hok; [left|exact Hq].
      assert (H5 : 5 < int_max_float) by (vm_compute; reflexivity). lia.
    + intros Hg. apply Hok; [now right|exact Hq].
Qed.

Lemma agregar_item_seguro_como_senal_witness :
  exists w',
    agregar_item_carrito te Workflow_init = (Ok tt, w')
    /\ agregar_item_seguro te Workflow_init =
         (Ok (mkItemAgregado "Item agregado correctamente" "te"
                             (total_carrito w')), w').
Proof.
  destruct (agregar_item_seguro_como_senal te Workflow_init)
    as [r [w' [E [_ [_ [Hp [Hr _]]]]]]].
  - reflexivity.
  - simpl. lia.
  - assert (Hok : r = Ok tt) by (apply Hr; simpl; lia).
    subst r. exists w'. split; [exact E|apply Hp; reflexivity].
Defined.

(** ** The total *)

Lemma total_al_dia_recalculado (d : Dict.dict Linea) (w : Workflow) :
  total_al_dia
    (set_total_carrito (py_sum (map linea_subtotal (Dict.values d)))
                       (set_items_carrito d w)).
Proof. reflexivity. Qed.

Lemma aplicar_cmd_total_al_dia (c : ItemCmd) (w : Workflow) :
  total_al_dia w -> total_al_dia (aplicar_cmd c w).
Proof.
  intros Hw. destruct c as [it|id]; simpl.
  - destruct (EstadoCarrito_eqb (estado w) ABIERTO) eqn:E.
    + apply EstadoCarrito_eqb_eq in E.
      rewrite (agregar_item_carrito_abierto it w E).
      destruct (Dict.get _ _); [apply total_al_dia_recalculado|].
      destruct (float_of_int _); [apply total_al_dia_recalculado|exact Hw].
    + apply EstadoCarrito_eqb_neq in E.
      now rewrite (agregar_item_carrito_cerrado it w E).
  - rewrite remover_item_carrito_cases.
    destruct (_ && _); [apply total_al_dia_recalculado|exact Hw].
Qed.

Lemma aplicar_cmd_estado (c : ItemCmd) (w : Workflow) :
  estado (aplicar_cmd c w) = estado w.
Proof.
  destruct c; simpl;
    [apply agregar_item_carrito_estado|apply remover_item_carrito_estado].
Qed.

Lemma aplicar_total_al_dia (cs : list ItemCmd) (w : Workflow) :
  total_al_dia w ->
  total_al_dia (aplicar cs w) /\ estado (aplicar cs w) = estado w.
Proof.
  revert w. induction cs as [|c cs IH]; intros w Hw; [now split|].
  simpl. destruct (IH (aplicar_cmd c w) (aplicar_cmd_total_al_dia c w Hw))
    as [Ht He].
  split; [exact Ht|]. rewrite He. apply aplicar_cmd_estado.
Qed.

(** C3: after any sequence of [agregar_item_carrito] and
    [remover_item_carrito] signals on the cart that [run] starts with, the
    cart is still ABIERTO and [total_carrito] is the sum of the [subtotal]
    fields stored in the lines of [items_carrito]. *)
Theorem total_carrito_es_suma_de_subtotales
    (usuario workflow_id : string) (cs : list ItemCmd) :
  let w := aplicar cs (wf (iniciar usuario workflow_id)) in
  estado w = ABIERTO
  /\ same_number (total_carrito w)
                 (py_sum (map linea_subtotal (Dict.values (items_carrito w)))).
Proof.
  simpl.
  destruct (aplicar_total_al_dia cs (wf (iniciar usuario workflow_id)))
    as [Ht He]; [reflexivity|].
  split; [exact He|exact Ht].
Qed.

(** ** Signals whose gate is closed *)

(** C5: a signal whose required state does not hold (the cart is not
    ABIERTO for the item signals and [aceptar_terminos]; not ABIERTO or the
    terms not accepted for [completar_compra]; not ENVIADO for
    [confirmar_recepcion]) returns normally and leaves every attribute of the
    workflow object as it was. *)
Theorem senal_rechazada_es_no_op (s : Senal) (w : Workflow) :
  puerta s w = false -> manejar_senal s w = (Ok tt, w).
Proof.
  destruct s as [it|id| | |]; simpl; intros H.
  - apply agregar_item_carrito_cerrado. now apply EstadoCarrito_eqb_neq.
  - rewrite remover_item_carrito_cases. now rewrite H.
  - unfold aceptar_terminos, bind, self. now rewrite H.
  - unfold completar_compra, bind, self.
    destruct (EstadoCarrito_eqb (estado w) ABIERTO); [|reflexivity].
    simpl in H. now rewrite H.
  - unfold confirmar_recepcion, bind, self. now rewrite H.
Qed.


Lemma senal_rechazada_es_no_op_witness :
  manejar_senal CompletarCompra Workflow_init = (Ok tt, Workflow_init).
Proof.
  apply (senal_rechazada_es_no_op CompletarCompra Workflow_init).
  reflexivity.
Defined.

(** ** Removing an item that is not there *)

(** C10: [remover_item_carrito] for a key that is not in [items_carrito]
    returns normally and leaves the workflow object as it was; and removing
    the same key a second time changes nothing more. *)
Theorem remover_item_ausente_es_no_op (id : string) (w : Workflow) :
  (Dict.mem id (items_carrito w) = false ->
   remover_item_carrito id w = (Ok tt, w))
  /\ remover_item_carrito id (snd (remover_item_carrito id w))
     = (Ok tt, snd (remover_item_carrito id w)).
Proof.
  assert (Habs : forall w0, Dict.mem id (items_carrito w0) = false ->
                            remover_item_carrito id w0 = (Ok tt, w0)).
  { intros w0 H. rewrite remover_item_carrito_cases, H.
    now rewrite andb_false_r. }
  split; [apply Habs|].
  rewrite (remover_item_carrito_cases id w).
  destruct (EstadoCarrito_eqb (estado w) ABIERTO) eqn:E; simpl.
  - destruct (Dict.mem id (items_carrito w)) eqn:Hm.
    + apply Habs. simpl. unfold Dict.mem. now rewrite dict_get_del_same.
    + now apply Habs.
  - rewrite remover_item_carrito_cases, E. reflexivity.
Qed.

Lemma remover_item_ausente_es_no_op_witness :
  remover_item_carrito "sku-2" (aplicar [Add cafe] Workflow_init)
  = (Ok tt, aplicar [Add cafe] Workflow_init).
Proof.
  apply (proj1 (remover_item_ausente_es_no_op
                  "sku-2" (aplicar [Add cafe] Workflow_init))).
  vm_compute. reflexivity.
Defined.

(** ** The lifecycle *)

Lemma manejar_senal_efecto (s : Senal) (w : Workflow) :
  let w' := snd (manejar_senal s w) in
  envio_resultado w' = envio_resultado w
  /\ (estado w' = estado w
      \/ (estado w = ABIERTO /\ estado w' = PAGADO)
      \/ (estado w = ENVIADO /\ estado w' = ENTREGADO)).
Proof.
  destruct s as [it|id| | |]; simpl.
  - split; [|left; apply agregar_item_carrito_estado].
    destruct (EstadoCarrito_eqb (estado w) ABIERTO) eqn:E.
    + apply EstadoCarrito_eqb_eq in E.
      rewrite (agregar_item_carrito_abierto it w E).
      destruct (Dict.get _ _); [reflexivity|].
      destruct (float_of_int _); reflexivity.
    + apply EstadoCarrito_eqb_neq in E.
      now rewrite (agregar_item_carrito_cerrado it w E).
  - rewrite remover_item_carrito_cases.
    destruct (_ && _); simpl; auto.
  - unfold aceptar_terminos, bind, self.
    destruct (EstadoCarrito_eqb (estado w) ABIERTO); simpl; auto.
  - unfold completar_compra, bind, self.
    destruct (EstadoCarrito_eqb (estado w) ABIERTO) eqn:E; simpl; auto.
    apply EstadoCarrito_eqb_eq in E.
    destruct (terminos_aceptados w); simpl; auto.
  - unfold confirmar_recepcion, bind, self.
    destruct (EstadoCarrito_eqb (estado w) ENVIADO) eqn:E; simpl; auto.
    apply EstadoCarrito_eqb_eq in E. auto.
Qed.

Lemma manejar_senal_cerrado (s : Senal) (w : Workflow) :
  estado w <> ABIERTO -> estado w <> ENVIADO -> manejar_senal s w = (Ok tt, w).
Proof.
  intros Ha He. apply EstadoCarrito_eqb_neq in Ha, He.
  destruct s as [it|id| | |]; simpl.
  - apply agregar_item_carrito_cerrado. now apply EstadoCarrito_eqb_neq.
  - rewrite remover_item_carrito_cases. now rewrite Ha.
  - unfold aceptar_terminos, bind, self. now rewrite Ha.
  - unfold completar_compra, bind, self. now rewrite Ha.
  - unfold confirmar_recepcion, bind, self. now rewrite He.
Qed.

Lemma agregar_item_seguro_cerrado (it : Item) (w : Workflow) :
  estado w <> ABIERTO -> snd (agregar_item_seguro it w) = w.
Proof.
  intros H. apply EstadoCarrito_eqb_neq in H.
  unfold agregar_item_seguro, bind, self, raise. now rewrite H.
Qed.

Lemma agregar_item_seguro_snd (it : Item) (w : Workflow) :
  snd (agregar_item_seguro it w) = w
  \/ snd (agregar_item_seguro it w) = snd (agregar_item_carrito it w).
Proof.
  destruct (EstadoCarrito_eqb (estado w) ABIERTO) eqn:E.
  - apply EstadoCarrito_eqb_eq in E.
    destruct (Z.le_gt_cases (cantidad it) 5) as [Hq|Hq].
    + right. rewrite (agregar_item_seguro_pasa it w E Hq).
      destruct (agregar_item_carrito it w) as [[[]|e] w']; reflexivity.
    + left. apply Z.ltb_lt in Hq.
      unfold agregar_item_seguro, bind, self, raise. rewrite E. simpl.
      now rewrite Hq.
  - left. apply agregar_item_seguro_cerrado. now apply EstadoCarrito_eqb_neq.
Qed.

Lemma agregar_item_seguro_efecto (it : Item) (w : Workflow) :
  let w' := snd (agregar_item_seguro it w) in
  envio_resultado w' = envio_resultado w /\ estado w' = estado w.
Proof.
  simpl. destruct (agregar_item_seguro_snd it w) as [-> | ->]; [now split|].
  pose proof (manejar_senal_efecto (AgregarItem it) w) as [He _].
  split; [exact He|apply agregar_item_carrito_estado].
Qed.

Lemma reanudar_wf (i : Instancia) : wf (reanudar i) = wf i.
Proof.
  unfold reanudar. destruct (fase i); try reflexivity.
  - destruct (_ || _); [|reflexivity]. destruct (EstadoCarrito_eqb _ _); reflexivity.
  - destruct (EstadoCarrito_eqb _ _); reflexivity.
Qed.

Lemma reanudar_invariante (i : Instancia) :
  invariante_previo i -> invariante (reanudar i).
Proof.
  destruct i as [w f cs]. unfold invariante_previo, invariante, reanudar. simpl.
  destruct f; simpl; try tauto.
  - intros [[H|H] [He Hc]]; rewrite H; simpl; auto.
  - intros [H|H]; rewrite H; simpl; [exact H|].
    rewrite H. split; discriminate.
Qed.

Lemma entregar_invariante (ev : Evento) (i : Instancia) :
  invariante i -> invariante_previo (entregar ev i).
Proof.
  destruct i as [w f cs]. unfold invariante, invariante_previo. simpl.
  destruct ev as [s|it| |payload|e]; simpl.
  - pose proof (manejar_senal_efecto s w) as [He Hs]. simpl in He, Hs.
    destruct f; simpl.
    + intros [Ha [Hr Hc]]. rewrite He.
      repeat split; auto.
      destruct Hs as [Hs|[[_ Hs]|[Hs _]]]; [left|right|]; congruence.
    + intros Hp. destruct Hs as [Hs|[[Hs _]|[Hs _]]]; congruence.
    + intros Hp. destruct Hs as [Hs|[[Hs _]|[_ Hs]]]; [left|congruence|right];
        congruence.
    + intros [Ha Hv]. now rewrite (manejar_senal_cerrado s w Ha Hv).
  - pose proof (agregar_item_seguro_efecto it w) as [He Hs]. simpl in He, Hs.
    rewrite Hs, He. destruct f; simpl; tauto.
  - destruct f; simpl; try tauto.
    intros _. split; discriminate.
  - destruct f; simpl; try tauto.
  - destruct f; simpl; try tauto.
    intros H. rewrite H. split; discriminate.
Qed.

Lemma paso_invariante (ev : Evento) (i : Instancia) :
  invariante i -> invariante (paso ev i).
Proof.
  intros H. apply reanudar_invariante, entregar_invariante, H.
Qed.

Lemma iniciar_invariante (usuario workflow_id : string) :
  invariante (iniciar usuario workflow_id).
Proof. unfold invariante; simpl. auto. Qed.

Lemma ejecutar_invariante (evs : list Evento) (i : Instancia) :
  invariante i -> invariante (ejecutar evs i).
Proof.
  revert i. induction evs as [|ev evs IH]; intros i H; [exact H|].
  simpl. apply IH, paso_invariante, H.
Qed.

(** Every event leaves [estado] as it is or moves it along an edge. *)
Lemma paso_transicion (ev : Evento) (i : Instancia) :
  invariante i ->
  estado (wf (paso ev i)) = estado (wf i)
  \/ transicion (estado (wf i)) (estado (wf (paso ev i))) = true.
Proof.
  unfold paso. rewrite reanudar_wf.
  destruct i as [w f cs]. unfold invariante. simpl.
  destruct ev as [s|it| |payload|e]; simpl.
  - intros _. pose proof (manejar_senal_efecto s w) as [_ Hs]. simpl in Hs.
    destruct Hs as [Hs|[[Ha Hs]|[Ha Hs]]]; [now left| |];
      right; rewrite Ha, Hs; reflexivity.
  - intros _. left. apply agregar_item_seguro_efecto.
  - destruct f; simpl; auto.
    intros [Ha _]. right. now rewrite Ha.
  - destruct f; simpl; auto.
    intros Ha. right. now rewrite Ha.
  - destruct f; simpl; auto.
Qed.

(** In a terminal state nothing changes the workflow any more. *)
Lemma paso_terminal (ev : Evento) (i : Instancia) :
  invariante i -> es_terminal i = true -> paso ev i = i.
Proof.
  destruct i as [w f cs]. unfold invariante, es_terminal. simpl.
  intros Hinv Ht.
  assert (Hf : exists r, f = Terminado r /\ estado w <> ABIERTO
                         /\ estado w <> ENVIADO).
  { destruct f as [|rq| |r]; simpl in *.
    - destruct Hinv as [Ha _]. rewrite Ha in Ht. discriminate.
    - rewrite Hinv in Ht. discriminate.
    - rewrite Hinv in Ht. discriminate.
    - exists r. tauto. }
  destruct Hf as [r [-> [Ha He]]].
  unfold paso.
  assert (Hent : entregar ev (mkInstancia w (Terminado r) cs)
                 = mkInstancia w (Terminado r) cs).
  { destruct ev as [s|it| | |]; simpl; try reflexivity.
    - unfold con_handler. simpl. now rewrite (manejar_senal_cerrado s w Ha He).
    - unfold con_handler. simpl. now rewrite (agregar_item_seguro_cerrado it w Ha). }
  rewrite Hent. reflexivity.
Qed.

(** C4: on every instance reached from the start of [run] by any sequence of
    events (signals, updates, the timeout, the end of the activity), one more
    event leaves [estado] where it is or moves it along an edge of the
    lifecycle graph ABIERTO -> PAGADO | CANCELADO | ABANDONADO,
    PAGADO -> ENVIADO, ENVIADO -> ENTREGADO; and once the instance is terminal
    (ABANDONADO, ENTREGADO, CANCELADO, or ended on a failed shipment) no event
    changes it at all. *)
Theorem estado_avanza_y_terminal_es_final
    (usuario workflow_id : string) (evs : list Evento) (ev : Evento) :
  let i := ejecutar evs (iniciar usuario workflow_id) in
  let i' := paso ev i in
  (estado (wf i') = estado (wf i)
   \/ transicion (estado (wf i)) (estado (wf i')) = true)
  /\ (es_terminal i = true -> i' = i).
Proof.
  simpl.
  pose proof (ejecutar_invariante evs _
                (iniciar_invariante usuario workflow_id)) as Hinv.
  split; [apply paso_transicion, Hinv|apply paso_terminal, Hinv].
Qed.

Lemma estado_avanza_y_terminal_es_final_witness :
  paso (Signal CompletarCompra)
       (ejecutar [Signal AceptarTerminos; TimeoutPago] (iniciar "ana" "wf-1"))
  = ejecutar [Signal AceptarTerminos; TimeoutPago] (iniciar "ana" "wf-1").
Proof.
  apply (proj2 (estado_avanza_y_terminal_es_final
                  "ana" "wf-1" [Signal AceptarTerminos; TimeoutPago]
                  (Signal CompletarCompra))).
  vm_compute. reflexivity.
Defined.

(** C8: while [run] is still in its first wait (the cart has reached neither
    PAGADO nor CANCELADO), the only thing it has asked of the host is the
    30-minute timeout of that wait; when the timeout fires, [run] sets the
    state to ABANDONADO and returns the final record tagged
    ABANDONADO_TIMEOUT, whose [detalles_envio] is the empty dictionary; no
    activity has been started. *)
Theorem timeout_abandona_sin_envio
    (usuario workflow_id : string) (evs : list Evento) :
  let i := ejecutar evs (iniciar usuario workflow_id) in
  fase i = EsperaPago ->
  let i' := paso TimeoutPago i in
  comandos i = [WaitConditionTimeout 1800]
  /\ estado (wf i') = ABANDONADO
  /\ (exists r, fase i' = Terminado r
                /\ r_estado_carrito r = ABANDONADO
                /\ r_resultado_workflow r = "ABANDONADO_TIMEOUT"
                /\ r_detalles_envio r = JObj [])
  /\ comandos i' = [WaitConditionTimeout 1800].
Proof.
  simpl.
  pose proof (ejecutar_invariante evs _
                (iniciar_invariante usuario workflow_id)) as Hinv.
  destruct (ejecutar evs (iniciar usuario workflow_id)) as [w f cs].
  simpl. intros ->. unfold invariante in Hinv. simpl in Hinv.
  destruct Hinv as [Ha [Hr Hc]].
  unfold paso. simpl. repeat split; try assumption.
  eexists. repeat split. simpl. exact Hr.
Qed.

Lemma timeout_abandona_sin_envio_witness :
  estado (wf (paso TimeoutPago
                (ejecutar [Signal (AgregarItem cafe)] (iniciar "ana" "wf-1"))))
  = ABANDONADO.
Proof.
  apply (timeout_abandona_sin_envio "ana" "wf-1" [Signal (AgregarItem cafe)]).
  vm_compute. reflexivity.
Defined.

(** ** The shipment activity *)

Lemma despachar_envio_activity_4xx
    (post : EnvioRequest -> PostOutcome) (request : EnvioRequest) (r : Response) :
  post request = Responded r -> es_4xx r = true ->
  despachar_envio_activity post request =
    Raise (ApplicationError ("Error de API no reintentable: " ++ text r)
                            (Some "NonRetryableAPIError") true).
Proof.
  intros Hp H. unfold despachar_envio_activity. rewrite Hp.
  unfold es_4xx in H. rewrite H.
  assert (Hs : is_success r = false).
  { unfold is_success. apply andb_true_iff in H as [H1 H2].
    apply Z.leb_le in H1. apply andb_false_iff. right. apply Z.ltb_ge. lia. }
  now rewrite Hs.
Qed.

Lemma despachar_envio_activity_5xx
    (post : EnvioRequest -> PostOutcome) (request : EnvioRequest) (r : Response) :
  post request = Responded r -> es_5xx r = true ->
  despachar_envio_activity post request = Raise (HTTPStatusError r).
Proof.
  intros Hp H. unfold despachar_envio_activity. rewrite Hp.
  unfold es_5xx in H. apply andb_true_iff in H as [H1 H2].
  apply Z.leb_le in H1.
  assert (Hs : is_success r = false).
  { unfold is_success. apply andb_false_iff. right. apply Z.ltb_ge. lia. }
  assert (H4 : (400 <=? status_code r) && (status_code r <? 500) = false).
  { apply andb_false_iff. right. apply Z.ltb_ge. lia. }
  now rewrite Hs, H4.
Qed.

Lemma attempt_from_no_retryable
    (activity : nat -> resultado json) (retries n : nat) (e : exn) :
  activity n = Raise e -> Temporal.retryable e = false ->
  Temporal.attempt_from activity retries n =
    Temporal.mkExecution
      (inr (Temporal.mkActivityError (Temporal.to_failure e)
                                     Temporal.NON_RETRYABLE_FAILURE)) n.
Proof.
  intros Ha Hr. destruct retries; simpl; now rewrite Ha, Hr.
Qed.

Lemma attempt_from_retryable
    (activity : nat -> resultado json) (retries n : nat) (e : exn) :
  activity n = Raise e -> Temporal.retryable e = true ->
  Temporal.attempt_from activity retries n =
    match retries with
    | O => Temporal.mkExecution
             (inr (Temporal.mkActivityError (Temporal.to_failure e)
                                            Temporal.MAXIMUM_ATTEMPTS_REACHED)) n
    | S retries' => Temporal.attempt_from activity retries' (S n)
    end.
Proof.
  intros Ha Hr. destruct retries; simpl; now rewrite Ha, Hr.
Qed.

(** C6: an attempt of [despachar_envio_activity] whose response has a
    status from 400 to 499 raises the ApplicationError of type
    NonRetryableAPIError that carries the text of the response and is marked
    non-retryable, and the host makes no further attempt whatever is left of
    the budget; an attempt that ends in a transport failure or in a response
    with a status from 500 to 599 re-raises the exception of the HTTP client,
    which the host follows with the next attempt while the budget lasts. *)
Theorem despachar_envio_clasifica_fallos
    (post : nat -> EnvioRequest -> PostOutcome) (request : EnvioRequest)
    (n retries : nat) :
  (forall r, post n request = Responded r -> es_4xx r = true ->
     let e := ApplicationError ("Error de API no reintentable: " ++ text r)
                               (Some "NonRetryableAPIError") true in
     despachar_envio_activity (post n) request = Raise e
     /\ Temporal.retryable e = false
     /\ Temporal.attempt_from (intentos post request) retries n =
          Temporal.mkExecution
            (inr (Temporal.mkActivityError e Temporal.NON_RETRYABLE_FAILURE)) n)
  /\ (forall e,
        (exists r, post n request = Responded r /\ es_5xx r = true
                   /\ e = HTTPStatusError r)
        \/ (exists m, post n request = TransportFailed m
                      /\ e = RequestError m) ->
        despachar_envio_activity (post n) request = Raise e
        /\ Temporal.retryable e = true
        /\ Temporal.attempt_from (intentos post request) (S retries) n =
             Temporal.attempt_from (intentos post request) retries (S n)).
Proof.
  split.
  - intros r Hp H4. simpl.
    pose proof (despachar_envio_activity_4xx (post n) request r Hp H4) as Ha.
    split; [exact Ha|]. split; [reflexivity|].
    now rewrite (attempt_from_no_retryable (intentos post request) retries n _ Ha).
  - intros e He.
    assert (Ha : despachar_envio_activity (post n) request = Raise e
                 /\ Temporal.retryable e = true).
    { destruct He as [[r [Hp [H5 ->]]]|[m [Hp ->]]].
      - split; [now apply despachar_envio_activity_5xx|reflexivity].
      - split; [|reflexivity]. unfold despachar_envio_activity. now rewrite Hp. }
    destruct Ha as [Ha Hr]. repeat split; try assumption.
    now rewrite (attempt_from_retryable (intentos post request) (S retries) n e Ha Hr).
Qed.

Lemma despachar_envio_clasifica_fallos_witness :
  Temporal.attempt_from (intentos rechazo_400 (mkEnvioRequest "ana" [] "x"))
                        2 1
  = Temporal.mkExecution
      (inr (Temporal.mkActivityError
              (ApplicationError "Error de API no reintentable: boom"
                                (Some "NonRetryableAPIError") true)
              Temporal.NON_RETRYABLE_FAILURE)) 1
  /\ Temporal.attempt_from (intentos red_caida (mkEnvioRequest "ana" [] "x"))
                           2 1
     = Temporal.attempt_from (intentos red_caida (mkEnvioRequest "ana" [] "x"))
                             1 2
  /\ Temporal.attempt_from (intentos caido_503 (mkEnvioRequest "ana" [] "x"))
                           2 1
     = Temporal.attempt_from (intentos caido_503 (mkEnvioRequest "ana" [] "x"))
                             1 2.
Proof.
  split; [|split].
  - apply (proj1 (despachar_envio_clasifica_fallos
                    rechazo_400 (mkEnvioRequest "ana" [] "x") 1 2)
                 respuesta_400); reflexivity.
  - apply (proj2 (despachar_envio_clasifica_fallos
                    red_caida (mkEnvioRequest "ana" [] "x") 1 1)
                 (RequestError "Error de API no reintentable: boom")).
    right. eexists. split; reflexivity.
  - apply (proj2 (despachar_envio_clasifica_fallos
                    caido_503 (mkEnvioRequest "ana" [] "x") 1 1)
                 (HTTPStatusError respuesta_503)).
    left. eexists. repeat split; reflexivity.
Defined.

(** ** A failed shipment in the final record *)

(** What [despachar_envio_activity] raises: the non-retryable error of a
    4xx response, or one of the client's exceptions, which are retried. *)
Lemma despachar_envio_activity_raise
    (post : EnvioRequest -> PostOutcome) (request : EnvioRequest) (e : exn) :
  despachar_envio_activity post request = Raise e ->
  (Temporal.retryable e = false
   /\ exists r, post request = Responded r /\ es_4xx r = true
                /\ e = ApplicationError
                         ("Error de API no reintentable: " ++ text r)
                         (Some "NonRetryableAPIError") true)
  \/ (Temporal.retryable e = true
      /\ (e = JSONDecodeError
          \/ (exists r, e = HTTPStatusError r)
          \/ (exists m, e = RequestError m))).
Proof.
  unfold despachar_envio_activity, es_4xx.
  destruct (post request) as [r|m].
  - destruct (is_success r).
    + destruct (body_json r); [discriminate|].
      intros H. injection H as <-. right. auto.
    + destruct ((400 <=? status_code r) && (status_code r <? 500)) eqn:E4;
        intros H; injection H as <-.
      * left. split; [reflexivity|]. exists r. auto.
      * right. split; [reflexivity|]. right. left. now exists r.
  - intros H. injection H as <-. right. split; [reflexivity|].
    right. right. now exists m.
Qed.

(** How the host gives an activity up: on the attempt that raised a
    non-retryable error, or on the last attempt of the budget when that one
    raised a retryable error; the cause is the failure of that attempt. *)
Lemma attempt_from_falla (activity : nat -> resultado json)
    (retries n : nat) (e : Temporal.ActivityError) :
  Temporal.outcome (Temporal.attempt_from activity retries n) = inr e ->
  exists e0,
    activity (Temporal.attempts (Temporal.attempt_from activity retries n))
    = Raise e0
    /\ Temporal.cause e = Temporal.to_failure e0
    /\ ((Temporal.retry_state e = Temporal.NON_RETRYABLE_FAILURE
         /\ Temporal.retryable e0 = false)
        \/ (Temporal.retry_state e = Temporal.MAXIMUM_ATTEMPTS_REACHED
            /\ Temporal.retryable e0 = true
            /\ Temporal.attempts (Temporal.attempt_from activity retries n)
               = (n + retries)%nat)).
Proof.
  revert n. induction retries as [|retries IH]; intros n; simpl;
    destruct (activity n) as [payload|e0] eqn:Ea; simpl; try discriminate;
    destruct (Temporal.retryable e0) eqn:Er; simpl.
  - intros H. injection H as <-. exists e0. simpl. rewrite Ea.
    split; [reflexivity|]. split; [reflexivity|]. right.
    split; [reflexivity|]. split; [exact Er|lia].
  - intros H. injection H as <-. exists e0. simpl. rewrite Ea. auto.
  - intros H. destruct (IH (S n) H) as [e1 [H1 [H2 H3]]].
    exists e1. split; [exact H1|]. split; [exact H2|].
    destruct H3 as [H3|[H3 [H4 H5]]]; [now left|right].
    repeat split; auto. rewrite H5. lia.
  - intros H. injection H as <-. exists e0. simpl. rewrite Ea. auto.
Qed.

(** [run] on the end of an activity that was given up. *)
Lemma resolver_envio_fallido
    (post : nat -> EnvioRequest -> PostOutcome) (i : Instancia)
    (request : EnvioRequest) (e : Temporal.ActivityError) :
  fase i = EsperaEnvio request ->
  Temporal.outcome (despachar post request) = inr e ->
  fase (resolver_envio post i)
  = Terminado
      (_estado_final "ENVIO_FALLIDO"
         (set_envio_resultado
            (JObj [("status", JStr "FALLIDO");
                   ("error", JStr (exn_str (Temporal.cause e)))]) (wf i))).
Proof.
  destruct i as [w f cs]. simpl. intros -> He.
  unfold resolver_envio. simpl. unfold evento_de_actividad. rewrite He.
  reflexivity.
Qed.

(** C7: a shipment that fails ends the lifecycle with the tag ENVIO_FALLIDO
    in both cases, and the final record tells the two apart. When the host
    gave the activity up because the budget was used, all three attempts were
    made and the [error] text of the record starts with the class of the
    client's exception; when it gave up on a non-retryable failure, the
    attempt it stopped at was answered with a status from 400 to 499 and the
    [error] text starts with [NonRetryableAPIError: ]. So
    [es_rechazo_de_politica] decides from the record which of the two
    happened, and the two records are never equal. *)
Theorem envio_fallido_distingue_agotado_de_rechazado
    (i : Instancia) (request : EnvioRequest)
    (post_agotado post_rechazado : nat -> EnvioRequest -> PostOutcome)
    (e1 e2 : Temporal.ActivityError) :
  fase i = EsperaEnvio request ->
  Temporal.outcome (despachar post_agotado request) = inr e1 ->
  Temporal.retry_state e1 = Temporal.MAXIMUM_ATTEMPTS_REACHED ->
  Temporal.outcome (despachar post_rechazado request) = inr e2 ->
  Temporal.retry_state e2 = Temporal.NON_RETRYABLE_FAILURE ->
  exists r1 r2,
    fase (resolver_envio post_agotado i) = Terminado r1
    /\ fase (resolver_envio post_rechazado i) = Terminado r2
    /\ r_resultado_workflow r1 = "ENVIO_FALLIDO"
    /\ r_resultado_workflow r2 = "ENVIO_FALLIDO"
    /\ Temporal.attempts (despachar post_agotado request) = 3%nat
    /\ (exists r4,
          post_rechazado (Temporal.attempts (despachar post_rechazado request))
                         request = Responded r4
          /\ es_4xx r4 = true)
    /\ es_rechazo_de_politica r1 = false
    /\ es_rechazo_de_politica r2 = true
    /\ r1 <> r2.
Proof.
  intros Hf He1 Hs1 He2 Hs2.
  rewrite (resolver_envio_fallido post_agotado i request e1 Hf He1).
  rewrite (resolver_envio_fallido post_rechazado i request e2 Hf He2).
  unfold despachar, Temporal.execute_activity in *.
  destruct (attempt_from_falla _ _ _ _ He1) as [a1 [Ha1 [Hc1 Hk1]]].
  destruct (attempt_from_falla _ _ _ _ He2) as [a2 [Ha2 [Hc2 Hk2]]].
  destruct Hk1 as [[Hk1 _]|[_ [Hr1 Hn1]]]; [congruence|].
  destruct Hk2 as [[_ Hr2]|[Hk2 _]]; [|congruence].
  unfold intentos in Ha1, Ha2.
  apply despachar_envio_activity_raise in Ha1, Ha2.
  destruct Ha1 as [[Hx _]|[_ Ha1]]; [congruence|].
  destruct Ha2 as [[_ [r4 [Hp4 [H4 Ha2]]]]|[Hx _]]; [|congruence].
  assert (R1 : es_rechazo_de_politica
                 (_estado_final "ENVIO_FALLIDO"
                    (set_envio_resultado
                       (JObj [("status", JStr "FALLIDO");
                              ("error", JStr (exn_str (Temporal.cause e1)))])
                       (wf i))) = false).
  { rewrite Hc1. unfold es_rechazo_de_politica. simpl.
    destruct Ha1 as [->|[[r ->]|[m ->]]]; reflexivity. }
  assert (R2 : es_rechazo_de_politica
                 (_estado_final "ENVIO_FALLIDO"
                    (set_envio_resultado
                       (JObj [("status", JStr "FALLIDO");
                              ("error", JStr (exn_str (Temporal.cause e2)))])
                       (wf i))) = true).
  { rewrite Hc2, Ha2. unfold es_rechazo_de_politica. reflexivity. }
  eexists. eexists. split; [reflexivity|]. split; [reflexivity|].
  split; [reflexivity|]. split; [reflexivity|].
  split; [exact Hn1|]. split; [exists r4; auto|].
  split; [exact R1|]. split; [exact R2|].
  intros Heq. rewrite Heq in R1. congruence.
Qed.

Lemma envio_fallido_distingue_agotado_de_rechazado_witness :
  exists r1 r2,
    fase (resolver_envio caido_503 compra_pagada) = Terminado r1
    /\ fase (resolver_envio rechazo_400 compra_pagada) = Terminado r2
    /\ es_rechazo_de_politica r1 = false
    /\ es_rechazo_de_politica r2 = true
    /\ r1 <> r2.
Proof.
  assert (Hf : fase compra_pagada
               = EsperaEnvio
                   (mkEnvioRequest (usuario_id (wf compra_pagada))
                                   (items_carrito (wf compra_pagada))
                                   direccion_por_defecto))
    by (vm_compute; reflexivity).
  assert (H1 : Temporal.outcome
                 (despachar caido_503
                    (mkEnvioRequest (usuario_id (wf compra_pagada))
                                    (items_carrito (wf compra_pagada))
                                    direccion_por_defecto))
               = inr (Temporal.mkActivityError
                        (ApplicationError
                           "Server error '503 Service Unavailable'"
                           (Some "HTTPStatusError") false)
                        Temporal.MAXIMUM_ATTEMPTS_REACHED))
    by (vm_compute; reflexivity).
  assert (H2 : Temporal.outcome
                 (despachar rechazo_400
                    (mkEnvioRequest (usuario_id (wf compra_pagada))
                                    (items_carrito (wf compra_pagada))
                                    direccion_por_defecto))
               = inr (Temporal.mkActivityError
                        (ApplicationError
                           "Error de API no reintentable: boom"
                           (Some "NonRetryableAPIError") true)
                        Temporal.NON_RETRYABLE_FAILURE))
    by (vm_compute; reflexivity).
  destruct (envio_fallido_distingue_agotado_de_rechazado
              compra_pagada _ caido_503 rechazo_400 _ _
              Hf H1 eq_refl H2 eq_refl)
    as [r1 [r2 [F1 [F2 [_ [_ [_ [_ [R1 [R2 Hne]]]]]]]]]].
  exists r1, r2. auto.
Defined.

(** * Further properties of the code *)

(** ** The dictionary of lines *)

Lemma dict_get_none_claves {V} (k : string) (d : Dict.dict V) :
  Dict.get k d = None <-> ~ In k (claves d).
Proof.
  induction d as [|[k' v] d IH]; simpl; [tauto|].
  destruct (String.eqb k k') eqn:E.
  - apply String.eqb_eq in E. subst. split; [discriminate|]. intros H. exfalso. auto.
  - apply String.eqb_neq in E. rewrite IH. split.
    + intros H [H1|H1]; [congruence|auto].
    + intros H H1. apply H. now right.
Qed.

Lemma dict_set_claves {V} (k : string) (v : V) (d : Dict.dict V) :
  claves (Dict.set k v d)
  = if Dict.mem k d then claves d else (claves d ++ [k])%list.
Proof.
  unfold Dict.mem. induction d as [|[k' v'] d IH]; simpl; [reflexivity|].
  destruct (String.eqb k k') eqn:E; simpl; [reflexivity|].
  rewrite IH. destruct (Dict.get k d); reflexivity.
Qed.

Lemma dict_set_nodup {V} (k : string) (v : V) (d : Dict.dict V) :
  NoDup (claves d) -> NoDup (claves (Dict.set k v d)).
Proof.
  intros H. rewrite dict_set_claves. unfold Dict.mem.
  destruct (Dict.get k d) eqn:E; [exact H|].
  apply dict_get_none_claves in E.
  apply NoDup_app; [exact H|repeat constructor; simpl; tauto|].
  intros x Hx [<-|[]]. exact (E Hx).
Qed.

Lemma dict_del_nodup {V} (k : string) (d : Dict.dict V) :
  NoDup (claves d) -> NoDup (claves (Dict.del k d)).
Proof.
  induction d as [|[k' v] d IH]; simpl; [auto|].
  intros H. inversion H as [|? ? Hn Hd]; subst.
  destruct (String.eqb k k'); simpl; [auto|].
  constructor; [|auto].
  intros Hin. apply Hn. unfold claves, Dict.del in *.
  apply in_map_iff in Hin as [[k2 v2] [Hk Hin]]. simpl in Hk. subst.
  apply filter_In in Hin as [Hin _]. apply in_map_iff. now exists (k', v2).
Qed.

Lemma dict_get_set_other {V} (k k' : string) (v : V) (d : Dict.dict V) :
  k' <> k -> Dict.get k' (Dict.set k v d) = Dict.get k' d.
Proof.
  intros Hne. induction d as [|[k2 v2] d IH]; simpl.
  - apply String.eqb_neq in Hne. now rewrite Hne.
  - destruct (String.eqb k k2) eqn:E; simpl.
    + apply String.eqb_eq in E. subst k2.
      apply String.eqb_neq in Hne. now rewrite Hne.
    + destruct (String.eqb k' k2); [reflexivity|exact IH].
Qed.

Lemma dict_get_del_other {V} (k k' : string) (d : Dict.dict V) :
  k' <> k -> Dict.get k' (Dict.del k d) = Dict.get k' d.
Proof.
  intros Hne. induction d as [|[k2 v2] d IH]; simpl; [reflexivity|].
  destruct (String.eqb k k2) eqn:E; simpl.
  - apply String.eqb_eq in E. subst k2.
    apply String.eqb_neq in Hne. now rewrite Hne.
  - now rewrite IH.
Qed.

Lemma dict_del_set_absent {V} (k : string) (v : V) (d : Dict.dict V) :
  Dict.get k d = None -> Dict.del k (Dict.set k v d) = d.
Proof.
  induction d as [|[k2 v2] d IH]; simpl.
  - now rewrite String.eqb_refl.
  - destruct (String.eqb k k2) eqn:E; [discriminate|].
    intros H. simpl. rewrite E. simpl. now rewrite (IH H).
Qed.

(** ** What the handlers leave alone *)

(** Every signal keeps the identifiers and the shipment result, never
    withdraws the acceptance of the terms, and either keeps [estado] (and
    then, outside ABIERTO, the whole object), or pays an open cart whose
    terms are accepted, or delivers a shipped one. *)
Lemma manejar_senal_forma (s : Senal) (w : Workflow) :
  let w' := snd (manejar_senal s w) in
  carrito_id w' = carrito_id w
  /\ usuario_id w' = usuario_id w
  /\ envio_resultado w' = envio_resultado w
  /\ (terminos_aceptados w = true -> terminos_aceptados w' = true)
  /\ ((estado w' = estado w /\ (estado w <> ABIERTO -> w' = w))
      \/ (estado w = ABIERTO /\ terminos_aceptados w = true
          /\ w' = set_estado PAGADO w)
      \/ (estado w = ENVIADO /\ w' = set_estado ENTREGADO w)).
Proof.
  destruct s as [it|id| | |]; simpl.
  - destruct (EstadoCarrito_eqb (estado w) ABIERTO) eqn:E.
    + apply EstadoCarrito_eqb_eq in E.
      rewrite (agregar_item_carrito_abierto it w E).
      destruct (Dict.get _ _); [|destruct (float_of_int _)]; simpl;
        repeat split; auto; left; split; auto; congruence.
    + apply EstadoCarrito_eqb_neq in E.
      rewrite (agregar_item_carrito_cerrado it w E). simpl.
      repeat split; auto.
  - rewrite remover_item_carrito_cases.
    destruct (EstadoCarrito_eqb (estado w) ABIERTO) eqn:E; simpl.
    + apply EstadoCarrito_eqb_eq in E.
      destruct (Dict.mem id (items_carrito w)); simpl;
        repeat split; auto; left; split; auto; congruence.
    + repeat split; auto.
  - unfold aceptar_terminos, bind, self.
    destruct (EstadoCarrito_eqb (estado w) ABIERTO) eqn:E; simpl.
    + apply EstadoCarrito_eqb_eq in E.
      repeat split; auto. left. split; auto. congruence.
    + repeat split; auto.
  - unfold completar_compra, bind, self.
    destruct (EstadoCarrito_eqb (estado w) ABIERTO) eqn:E; simpl.
    + apply EstadoCarrito_eqb_eq in E.
      destruct (terminos_aceptados w) eqn:T; simpl.
      * repeat split; auto.
      * repeat split; auto. discriminate.
    + repeat split; auto.
  - unfold confirmar_recepcion, bind, self.
    destruct (EstadoCarrito_eqb (estado w) ENVIADO) eqn:E; simpl.
    + apply EstadoCarrito_eqb_eq in E. repeat split; auto.
    + repeat split; auto.
Qed.

Lemma agregar_item_seguro_forma (it : Item) (w : Workflow) :
  let w' := snd (agregar_item_seguro it w) in
  carrito_id w' = carrito_id w
  /\ usuario_id w' = usuario_id w
  /\ envio_resultado w' = envio_resultado w
  /\ terminos_aceptados w' = terminos_aceptados w
  /\ estado w' = estado w
  /\ (estado w <> ABIERTO -> w' = w).
Proof.
  simpl. destruct (agregar_item_seguro_snd it w) as [-> | ->].
  - repeat split; auto.
  - destruct (EstadoCarrito_eqb (estado w) ABIERTO) eqn:E.
    + apply EstadoCarrito_eqb_eq in E.
      rewrite (agregar_item_carrito_abierto it w E).
      destruct (Dict.get _ _); [|destruct (float_of_int _)]; simpl;
        repeat split; auto; congruence.
    + apply EstadoCarrito_eqb_neq in E.
      rewrite (agregar_item_carrito_cerrado it w E). simpl.
      repeat split; auto.
Qed.

Lemma manejar_senal_items (s : Senal) (w : Workflow) :
  let d := items_carrito w in
  let d' := items_carrito (snd (manejar_senal s w)) in
  d' = d
  \/ (exists it l, s = AgregarItem it /\ d' = Dict.set (item_id it) l d)
  \/ (exists id, s = RemoverItem id /\ d' = Dict.del id d).
Proof.
  destruct s as [it|id| | |]; simpl.
  - destruct (EstadoCarrito_eqb (estado w) ABIERTO) eqn:E.
    + apply EstadoCarrito_eqb_eq in E.
      rewrite (agregar_item_carrito_abierto it w E).
      destruct (Dict.get _ _); [|destruct (float_of_int _)]; simpl; eauto 6.
    + apply EstadoCarrito_eqb_neq in E.
      rewrite (agregar_item_carrito_cerrado it w E). now left.
  - rewrite remover_item_carrito_cases.
    destruct (_ && _); simpl; eauto.
  - pose proof (manejar_senal_forma AceptarTerminos w) as H. simpl in H.
    unfold aceptar_terminos, bind, self.
    destruct (EstadoCarrito_eqb (estado w) ABIERTO); now left.
  - unfold completar_compra, bind, self.
    destruct (EstadoCarrito_eqb (estado w) ABIERTO); [|now left].
    destruct (terminos_aceptados w); now left.
  - unfold confirmar_recepcion, bind, self.
    destruct (EstadoCarrito_eqb (estado w) ENVIADO); now left.
Qed.

Lemma entregar_items (ev : Evento) (i : Instancia) :
  let d := items_carrito (wf i) in
  let d' := items_carrito (wf (entregar ev i)) in
  d' = d \/ (exists k l, d' = Dict.set k l d) \/ (exists k, d' = Dict.del k d).
Proof.
  destruct ev as [s|it| |payload|e]; simpl.
  - destruct (manejar_senal_items s (wf i)) as [H|[[it [l [_ H]]]|[id [_ H]]]];
      simpl in H; rewrite H; eauto.
  - destruct (agregar_item_seguro_snd it (wf i)) as [H|H]; rewrite H; [now left|].
    destruct (manejar_senal_items (AgregarItem it) (wf i))
      as [H1|[[it1 [l [_ H1]]]|[id [_ H1]]]]; simpl in H1; rewrite H1; eauto.
  - destruct (fase i); now left.
  - destruct (fase i); now left.
  - destruct (fase i); now left.
Qed.

(** The association list that stands for [items_carrito] stays a
    dictionary: its keys are pairwise distinct in every instance reached from
    the start of [run]. *)
Lemma claves_del_carrito_sin_repetir
    (usuario workflow_id : string) (evs : list Evento) :
  NoDup (claves (items_carrito (wf (ejecutar evs (iniciar usuario workflow_id))))).
Proof.
  assert (Hgen : forall i, NoDup (claves (items_carrito (wf i))) ->
                           NoDup (claves (items_carrito (wf (ejecutar evs i))))).
  { induction evs as [|ev evs IH]; intros i H; [exact H|].
    simpl. apply IH. unfold paso. rewrite reanudar_wf.
    destruct (entregar_items ev i) as [E|[[k [l E]]|[k E]]];
      simpl in E; rewrite E.
    - exact H.
    - now apply dict_set_nodup.
    - now apply dict_del_nodup. }
  apply Hgen. simpl. constructor.
Qed.

Lemma subtotales_set_misma_linea
    (k : string) (l l' : Linea) (d : Dict.dict Linea) :
  Dict.get k d = Some l -> linea_subtotal l' = linea_subtotal l ->
  map linea_subtotal (Dict.values (Dict.set k l' d))
  = map linea_subtotal (Dict.values d).
Proof.
  intros Hg Hs. induction d as [|[k2 l2] d IH]; simpl in *; [discriminate|].
  destruct (String.eqb k k2); simpl.
  - injection Hg as ->. now rewrite Hs.
  - now rewrite (IH Hg).
Qed.

(** X2: adding an item whose id is already in an open cart returns
    normally and changes that line only in its quantity, which grows by the
    quantity added: the name, the price and the subtotal stored with the
    first addition stay, the name and price of the new item are not looked
    at, the order of the lines is the same, and the total is again the sum of
    the subtotals as they were. *)
Theorem agregar_item_existente_suma_cantidad
    (it : Item) (l : Linea) (w : Workflow) :
  estado w = ABIERTO ->
  Dict.get (item_id it) (items_carrito w) = Some l ->
  exists w',
    agregar_item_carrito it w = (Ok tt, w')
    /\ Dict.get (item_id it) (items_carrito w')
       = Some (mkLinea (linea_nombre l) (linea_precio l)
                       (linea_cantidad l + cantidad it) (linea_subtotal l))
    /\ claves (items_carrito w') = claves (items_carrito w)
    /\ total_carrito w' = suma_subtotales w.
Proof.
  intros Ha Hg. rewrite (agregar_item_carrito_abierto it w Ha), Hg.
  eexists. split; [reflexivity|]. simpl. split; [apply dict_get_set_same|].
  split.
  - rewrite dict_set_claves. unfold Dict.mem. now rewrite Hg.
  - unfold suma_subtotales.
    now rewrite (subtotales_set_misma_linea _ l _ _ Hg).
Qed.

Lemma agregar_item_existente_suma_cantidad_witness :
  exists w',
    agregar_item_carrito te (aplicar [Add cafe; Add te] Workflow_init)
    = (Ok tt, w')
    /\ Dict.get "sku-2" (items_carrito w')
       = Some (mkLinea "te" 2.5%float 6 7.5%float)
    /\ claves (items_carrito w') = ["sku-1"; "sku-2"]
    /\ total_carrito w' = PFloat 17.5%float.
Proof.
  apply (agregar_item_existente_suma_cantidad
           te (mkLinea "te" 2.5%float 3 7.5%float)
           (aplicar [Add cafe; Add te] Workflow_init)).
  - vm_compute. reflexivity.
  - vm_compute. reflexivity.
Defined.

(** X3: the item signals touch one line only: after
    [agregar_item_carrito] or [remover_item_carrito] for one id, in whatever
    state and with whatever outcome, the line stored under any other id is
    the one that was there. *)
Theorem senales_de_item_no_tocan_otras_lineas
    (it : Item) (id k : string) (w : Workflow) :
  (k <> item_id it ->
   Dict.get k (items_carrito (snd (agregar_item_carrito it w)))
   = Dict.get k (items_carrito w))
  /\ (k <> id ->
      Dict.get k (items_carrito (snd (remover_item_carrito id w)))
      = Dict.get k (items_carrito w)).
Proof.
  split; intros Hne.
  - destruct (EstadoCarrito_eqb (estado w) ABIERTO) eqn:E.
    + apply EstadoCarrito_eqb_eq in E.
      rewrite (agregar_item_carrito_abierto it w E).
      destruct (Dict.get (item_id it) _); [|destruct (float_of_int _)]; simpl;
        try reflexivity; now apply dict_get_set_other.
    + apply EstadoCarrito_eqb_neq in E.
      now rewrite (agregar_item_carrito_cerrado it w E).
  - rewrite remover_item_carrito_cases.
    destruct (_ && _); simpl; [now apply dict_get_del_other|reflexivity].
Qed.

Lemma senales_de_item_no_tocan_otras_lineas_witness :
  Dict.get "sku-1"
    (items_carrito (snd (agregar_item_carrito te (aplicar [Add cafe] Workflow_init))))
  = Dict.get "sku-1" (items_carrito (aplicar [Add cafe] Workflow_init))
  /\ Dict.get "sku-1"
       (items_carrito
          (snd (remover_item_carrito "sku-2"
                  (aplicar [Add cafe; Add te] Workflow_init))))
     = Dict.get "sku-1" (items_carrito (aplicar [Add cafe; Add te] Workflow_init)).
Proof.
  split.
  - apply (proj1 (senales_de_item_no_tocan_otras_lineas
                    te "sku-2" "sku-1" (aplicar [Add cafe] Workflow_init))).
    discriminate.
  - apply (proj2 (senales_de_item_no_tocan_otras_lineas
                    te "sku-2" "sku-1"
                    (aplicar [Add cafe; Add te] Workflow_init))).
    discriminate.
Defined.

(** X4: on an open cart, adding an item whose id is new and then removing
    that id gives back the cart as it was, lines and order included, with the
    total recomputed from its lines. *)
Theorem agregar_y_remover_restaura (it : Item) (w w1 : Workflow) :
  estado w = ABIERTO ->
  Dict.get (item_id it) (items_carrito w) = None ->
  agregar_item_carrito it w = (Ok tt, w1) ->
  remover_item_carrito (item_id it) w1
  = (Ok tt, set_total_carrito (suma_subtotales w) w).
Proof.
  intros Ha Hn. rewrite (agregar_item_carrito_abierto it w Ha), Hn.
  destruct (float_of_int (cantidad it)) as [q|]; [|discriminate].
  intros H. injection H as <-.
  rewrite remover_item_carrito_cases. simpl. rewrite Ha. simpl.
  unfold Dict.mem. rewrite dict_get_set_same.
  rewrite (dict_del_set_absent _ _ _ Hn).
  unfold suma_subtotales, set_total_carrito, set_items_carrito. simpl.
  reflexivity.
Qed.

Lemma agregar_y_remover_restaura_witness :
  remover_item_carrito "sku-2"
    (snd (agregar_item_carrito te (aplicar [Add cafe] Workflow_init)))
  = (Ok tt, set_total_carrito
              (suma_subtotales (aplicar [Add cafe] Workflow_init))
              (aplicar [Add cafe] Workflow_init)).
Proof.
  apply (agregar_y_remover_restaura
           te (aplicar [Add cafe] Workflow_init)
           (snd (agregar_item_carrito te (aplicar [Add cafe] Workflow_init)))).
  - vm_compute. reflexivity.
  - vm_compute. reflexivity.
  - vm_compute. reflexivity.
Defined.

(** X5: adding an item whose id is new to an open cart, with a quantity
    the product can convert, returns normally, puts the line last (the lines
    before it keep their order) and stores under the id the name, price and
    quantity of the item with the product of price and quantity as
    subtotal. *)
Theorem agregar_item_nuevo_al_final (it : Item) (q : float) (w : Workflow) :
  estado w = ABIERTO ->
  Dict.get (item_id it) (items_carrito w) = None ->
  float_of_int (cantidad it) = Some q ->
  exists w',
    agregar_item_carrito it w = (Ok tt, w')
    /\ items_carrito w'
       = (items_carrito w
          ++ [(item_id it,
               mkLinea (nombre it) (precio it) (cantidad it)
                       (PrimFloat.mul (precio it) q))])%list
    /\ Dict.get (item_id it) (items_carrito w')
       = Some (mkLinea (nombre it) (precio it) (cantidad it)
                       (PrimFloat.mul (precio it) q))
    /\ total_carrito w' = suma_subtotales w'.
Proof.
  intros Ha Hn Hq. rewrite (agregar_item_carrito_abierto it w Ha), Hn, Hq.
  eexists. split; [reflexivity|]. simpl.
  assert (Hs : forall (d : Dict.dict Linea) k v,
            Dict.get k d = None -> Dict.set k v d = (d ++ [(k, v)])%list).
  { induction d as [|[k2 v2] d IH]; simpl; intros k v H; [reflexivity|].
    destruct (String.eqb k k2); [discriminate|]. now rewrite (IH _ _ H). }
  split; [now apply Hs|]. split; [apply dict_get_set_same|reflexivity].
Qed.

Lemma agregar_item_nuevo_al_final_witness :
  exists w',
    agregar_item_carrito te (aplicar [Add cafe] Workflow_init) = (Ok tt, w')
    /\ items_carrito w'
       = [("sku-1", mkLinea "cafe" 10%float 1 10%float);
          ("sku-2", mkLinea "te" 2.5%float 3 7.5%float)].
Proof.
  destruct (agregar_item_nuevo_al_final
              te 3%float (aplicar [Add cafe] Workflow_init)
              eq_refl eq_refl eq_refl) as [w' [H1 [H2 _]]].
  exists w'. split; [exact H1|]. rewrite H2. reflexivity.
Defined.

(** X6: the ceiling of 5 of [agregar_item_seguro] is per call and not on
    the line: for an item whose id is already in an open cart, every call
    with a quantity of at most 5 is accepted, whatever the line holds, and
    the line then holds the sum; the payload echoes the total of the cart as
    the call leaves it. *)
Theorem agregar_item_seguro_tope_por_llamada
    (it : Item) (l : Linea) (w : Workflow) :
  estado w = ABIERTO ->
  Dict.get (item_id it) (items_carrito w) = Some l ->
  cantidad it <= 5 ->
  exists w',
    agregar_item_seguro it w
    = (Ok (mkItemAgregado "Item agregado correctamente" (nombre it)
                          (total_carrito w')), w')
    /\ exists l', Dict.get (item_id it) (items_carrito w') = Some l'
                  /\ linea_cantidad l' = linea_cantidad l + cantidad it.
Proof.
  intros Ha Hg Hq. rewrite (agregar_item_seguro_pasa it w Ha Hq).
  rewrite (agregar_item_carrito_abierto it w Ha), Hg.
  eexists. split; [reflexivity|]. simpl.
  eexists. split; [apply dict_get_set_same|reflexivity].
Qed.

Lemma agregar_item_seguro_tope_por_llamada_witness :
  exists w',
    agregar_item_seguro (mkItem "sku-2" "te" 2.5%float 5)
                        (aplicar [Add te; Add te] Workflow_init)
    = (Ok (mkItemAgregado "Item agregado correctamente" "te"
                          (total_carrito w')), w')
    /\ exists l', Dict.get "sku-2" (items_carrito w') = Some l'
                  /\ linea_cantidad l' = 6 + 5.
Proof.
  apply (agregar_item_seguro_tope_por_llamada
           (mkItem "sku-2" "te" 2.5%float 5)
           (mkLinea "te" 2.5%float 6 7.5%float)
           (aplicar [Add te; Add te] Workflow_init)).
  - vm_compute. reflexivity.
  - vm_compute. reflexivity.
  - simpl. lia.
Defined.

(** ** Terms, and the cart after payment *)

(** X7: [aceptar_terminos] on an open cart records the acceptance and
    changes nothing else, and no event ever withdraws it: once
    [terminos_aceptados] is true it is true after every further event. *)
Theorem terminos_aceptados_se_conservan (ev : Evento) (i : Instancia) :
  (estado (wf i) = ABIERTO ->
   aceptar_terminos (wf i) = (Ok tt, set_terminos_aceptados true (wf i)))
  /\ (terminos_aceptados (wf i) = true ->
      terminos_aceptados (wf (paso ev i)) = true).
Proof.
  split.
  - intros H. unfold aceptar_terminos, bind, self. now rewrite H.
  - intros H. unfold paso. rewrite reanudar_wf.
    destruct ev as [s|it| |payload|e]; simpl.
    + now apply (manejar_senal_forma s (wf i)).
    + pose proof (agregar_item_seguro_forma it (wf i)) as [_ [_ [_ [Ht _]]]].
      simpl in Ht. now rewrite Ht.
    + destruct (fase i); exact H.
    + destruct (fase i); exact H.
    + destruct (fase i); exact H.
Qed.

Lemma terminos_aceptados_se_conservan_witness :
  terminos_aceptados
    (wf (paso TimeoutPago
           (ejecutar [Signal AceptarTerminos] (iniciar "ana" "wf-1")))) = true.
Proof.
  apply (proj2 (terminos_aceptados_se_conservan
                  TimeoutPago
                  (ejecutar [Signal AceptarTerminos] (iniciar "ana" "wf-1")))).
  vm_compute. reflexivity.
Defined.

(** X8: once the cart has left ABIERTO, nothing that reaches the workflow
    changes its lines, its total, the acceptance of the terms or its
    identifiers: a signal, the update, the timeout and the end of the
    activity can from then on only move [estado] and set
    [envio_resultado]. *)
Theorem carrito_congelado_fuera_de_abierto (ev : Evento) (i : Instancia) :
  estado (wf i) <> ABIERTO ->
  let w' := wf (paso ev i) in
  items_carrito w' = items_carrito (wf i)
  /\ total_carrito w' = total_carrito (wf i)
  /\ terminos_aceptados w' = terminos_aceptados (wf i)
  /\ carrito_id w' = carrito_id (wf i)
  /\ usuario_id w' = usuario_id (wf i).
Proof.
  intros Hne. simpl. unfold paso. rewrite reanudar_wf.
  destruct ev as [s|it| |payload|e]; simpl.
  - pose proof (manejar_senal_forma s (wf i)) as [_ [_ [_ [_ H]]]].
    simpl in H. destruct H as [[_ H]|[[H _]|[_ H]]].
    + rewrite (H Hne). repeat split.
    + contradiction.
    + rewrite H. repeat split.
  - pose proof (agregar_item_seguro_forma it (wf i)) as [_ [_ [_ [_ [_ H]]]]].
    simpl in H. rewrite (H Hne). repeat split.
  - destruct (fase i); repeat split.
  - destruct (fase i); repeat split.
  - destruct (fase i); repeat split.
Qed.

Lemma carrito_congelado_fuera_de_abierto_witness :
  items_carrito (wf (paso (Signal (RemoverItem "sku-1")) compra_pagada))
  = items_carrito (wf compra_pagada).
Proof.
  apply (carrito_congelado_fuera_de_abierto
           (Signal (RemoverItem "sku-1")) compra_pagada).
  vm_compute. discriminate.
Defined.

(** ** The course of [run] *)

Lemma reanudar_quieto (i : Instancia) :
  match fase i with
  | EsperaPago => estado (wf i) = ABIERTO
  | EsperaEntrega => estado (wf i) = ENVIADO
  | _ => True
  end -> reanudar i = i.
Proof.
  unfold reanudar. destruct (fase i); auto; intros ->; reflexivity.
Qed.

Lemma paso_invariante_fuerte
    (usuario workflow_id : string) (ev : Evento) (i : Instancia) :
  invariante_fuerte usuario workflow_id i ->
  invariante_fuerte usuario workflow_id (paso ev i).
Proof.
  destruct i as [w f cs]. unfold invariante_fuerte. simpl.
  intros [Hc [Hu Hf]]. unfold paso.
  destruct ev as [s|it| |payload|e].
  - (* a signal *)
    pose proof (manejar_senal_forma s w) as [Hc' [Hu' [He' [_ Hs]]]].
    simpl in Hc', Hu', He', Hs.
    unfold entregar, con_handler. simpl.
    set (w' := snd (manejar_senal s w)) in *.
    destruct f as [|rq| |r]; simpl in Hf.
    + destruct Hf as [Ha [Hr Hk]].
      destruct Hs as [[Hs _]|[[_ [_ Hs]]|[Hs _]]]; [| |congruence].
      * rewrite reanudar_quieto by (simpl; congruence). simpl.
        repeat split; congruence.
      * unfold reanudar. simpl. rewrite Hs. simpl.
        rewrite Hk. simpl. repeat split; try congruence; rewrite <- Hs; congruence.
    + destruct Hf as [Ha Hrest].
      destruct Hs as [[_ Hs]|[[Hs _]|[Hs _]]]; [|congruence|congruence].
      rewrite Hs by congruence. simpl. auto.
    + destruct Hf as [Ha Hk].
      destruct Hs as [[_ Hs]|[[Hs _]|[_ Hs]]]; [|congruence|].
      * rewrite Hs by congruence.
        rewrite reanudar_quieto by (simpl; congruence). simpl. auto.
      * unfold reanudar. simpl. rewrite Hs. simpl.
        repeat split; try congruence. right. right.
        repeat split. exact Hk.
    + assert (Hw : w' = w).
      { destruct Hs as [[_ Hs]|[[Hs _]|[Hs _]]].
        - apply Hs. destruct Hf as [[H _]|[[H _]|[H _]]]; congruence.
        - destruct Hf as [[H _]|[[H _]|[H _]]]; congruence.
        - destruct Hf as [[H _]|[[H _]|[H _]]]; congruence. }
      rewrite Hw. simpl. auto.
  - (* the update *)
    pose proof (agregar_item_seguro_forma it w)
      as [Hc' [Hu' [He' [_ [Hs Hw]]]]].
    simpl in Hc', Hu', He', Hs, Hw.
    unfold entregar, con_handler. simpl.
    set (w' := snd (agregar_item_seguro it w)) in *.
    destruct f as [|rq| |r]; simpl in Hf.
    + destruct Hf as [Ha [Hr Hk]].
      rewrite reanudar_quieto by (simpl; congruence). simpl.
      repeat split; congruence.
    + destruct Hf as [Ha Hrest]. rewrite Hw by congruence. simpl. auto.
    + destruct Hf as [Ha Hk]. rewrite Hw by congruence.
      rewrite reanudar_quieto by (simpl; congruence). simpl. auto.
    + rewrite Hw; [simpl; auto|].
      destruct Hf as [[H _]|[[H _]|[H _]]]; congruence.
  - (* the timeout of the first wait *)
    destruct f as [|rq| |r]; simpl in *.
    + destruct Hf as [Ha [Hr Hk]]. repeat split; auto.
    + auto.
    + destruct Hf as [Ha Hk].
      rewrite reanudar_quieto by (simpl; congruence). simpl. auto.
    + auto.
  - (* the activity ended well *)
    destruct f as [|rq| |r]; simpl in *.
    + destruct Hf as [Ha [Hr Hk]].
      rewrite reanudar_quieto by (simpl; congruence). simpl. auto.
    + destruct Hf as [Ha [Hr [Hq Hk]]]. repeat split; auto.
    + destruct Hf as [Ha Hk].
      rewrite reanudar_quieto by (simpl; congruence). simpl. auto.
    + auto.
  - (* the activity was given up *)
    destruct f as [|rq| |r]; simpl in *.
    + destruct Hf as [Ha [Hr Hk]].
      rewrite reanudar_quieto by (simpl; congruence). simpl. auto.
    + destruct Hf as [Ha [Hr [Hq Hk]]]. repeat split; auto.
      right. left. repeat split; auto. eexists. reflexivity.
    + destruct Hf as [Ha Hk].
      rewrite reanudar_quieto by (simpl; congruence). simpl. auto.
    + auto.
Qed.

Lemma ejecutar_invariante_fuerte
    (usuario workflow_id : string) (evs : list Evento) :
  invariante_fuerte usuario workflow_id
    (ejecutar evs (iniciar usuario workflow_id)).
Proof.
  assert (Hgen : forall i, invariante_fuerte usuario workflow_id i ->
                 invariante_fuerte usuario workflow_id (ejecutar evs i)).
  { induction evs as [|ev evs IH]; intros i H; [exact H|].
    simpl. apply IH, paso_invariante_fuerte, H. }
  apply Hgen. unfold invariante_fuerte. simpl. auto.
Qed.

(** X9: [run] starts the shipment activity at most once, and with the cart
    as the final record shows it. In every instance reached from the start
    of [run], the commands issued are the 30-minute wait alone while the cart
    is ABIERTO or ABANDONADO; from PAGADO on they are that wait followed by
    one [StartActivity] of [despachar_envio_activity] with three attempts and
    30 seconds per attempt, whose request carries the user, the default
    address and exactly the lines the cart holds now. CANCELADO is never
    reached. *)
Theorem una_sola_actividad_con_el_carrito_actual
    (usuario workflow_id : string) (evs : list Evento) :
  let i := ejecutar evs (iniciar usuario workflow_id) in
  match estado (wf i) with
  | ABIERTO | ABANDONADO => comandos i = [WaitConditionTimeout 1800]
  | PAGADO | ENVIADO | ENTREGADO =>
      comandos i =
        [WaitConditionTimeout 1800;
         StartActivity "despachar_envio_activity"
           (mkEnvioRequest usuario (items_carrito (wf i)) "Dirección por defecto")
           30 (Temporal.mkRetryPolicy 2 2%float 10 3%nat)]
  | CANCELADO => False
  end.
Proof.
  simpl.
  pose proof (ejecutar_invariante_fuerte usuario workflow_id evs) as H.
  destruct (ejecutar evs (iniciar usuario workflow_id)) as [w f cs].
  unfold invariante_fuerte in H. simpl in *.
  destruct H as [_ [Hu H]].
  unfold comando_envio, solicitud_de in H. rewrite Hu in H.
  destruct f as [|rq| |r].
  - destruct H as [-> [_ ->]]. reflexivity.
  - destruct H as [-> [_ [_ ->]]]. reflexivity.
  - destruct H as [-> ->]. reflexivity.
  - destruct H as [[-> [_ [_ ->]]]|[[-> [_ [_ ->]]]|[-> [_ ->]]]]; reflexivity.
Qed.

(** X10: the record [run] returned describes the workflow object as it
    still is, and its tag goes with the state: in every instance reached from
    the start of [run] in which [run] has returned [r], [r] is
    [_estado_final] of the current object, and either the tag is
    ABANDONADO_TIMEOUT, the state ABANDONADO and [detalles_envio] empty, or
    the tag is ENVIO_FALLIDO, the state still PAGADO and [detalles_envio] the
    failure record, or the tag is COMPLETADO_ENTREGADO and the state
    ENTREGADO. The tag CANCELADO_POR_USUARIO is never returned. *)
Theorem resultado_final_describe_el_carrito
    (usuario workflow_id : string) (evs : list Evento) (r : ResultadoFinal) :
  let i := ejecutar evs (iniciar usuario workflow_id) in
  fase i = Terminado r ->
  r = _estado_final (r_resultado_workflow r) (wf i)
  /\ r_carrito_id r = "carrito-" ++ usuario ++ "-" ++ workflow_id
  /\ r_usuario_id r = usuario
  /\ ((r_resultado_workflow r = "ABANDONADO_TIMEOUT"
       /\ r_estado_carrito r = ABANDONADO /\ r_detalles_envio r = JObj [])
      \/ (r_resultado_workflow r = "ENVIO_FALLIDO"
          /\ r_estado_carrito r = PAGADO
          /\ exists m, r_detalles_envio r
                       = JObj [("status", JStr "FALLIDO"); ("error", JStr m)])
      \/ (r_resultado_workflow r = "COMPLETADO_ENTREGADO"
          /\ r_estado_carrito r = ENTREGADO)).
Proof.
  simpl.
  pose proof (ejecutar_invariante_fuerte usuario workflow_id evs) as H.
  destruct (ejecutar evs (iniciar usuario workflow_id)) as [w f cs].
  unfold invariante_fuerte in H. simpl in *. intros ->.
  destruct H as [Hc [Hu H]].
  destruct H as [[He [-> [Hr _]]]|[[He [-> [[m Hr] _]]]|[He [-> _]]]]; simpl;
    repeat split; auto 6.
  right. left. repeat split; auto. exists m. exact Hr.
Qed.

Lemma resultado_final_describe_el_carrito_witness :
  r_resultado_workflow
    (_estado_final "ABANDONADO_TIMEOUT"
       (set_estado ABANDONADO (wf (iniciar "ana" "wf-1"))))
  = "ABANDONADO_TIMEOUT"
  /\ r_carrito_id
       (_estado_final "ABANDONADO_TIMEOUT"
          (set_estado ABANDONADO (wf (iniciar "ana" "wf-1"))))
     = "carrito-ana-wf-1".
Proof.
  pose proof (resultado_final_describe_el_carrito
                "ana" "wf-1" [TimeoutPago]
                (_estado_final "ABANDONADO_TIMEOUT"
                   (set_estado ABANDONADO (wf (iniciar "ana" "wf-1"))))
                eq_refl) as [_ [Hc _]].
  split; [reflexivity|exact Hc].
Defined.

(** X11: the purchase from payment to delivery. On an open cart whose terms
    are accepted and for which [run] is in its first wait,
    [completar_compra] makes [run] start the activity with the lines of the
    cart; when the activity returns [payload], [run] stores it and the cart
    is ENVIADO; [confirmar_recepcion] then ends [run] with the record tagged
    COMPLETADO_ENTREGADO, in which the lines, the total and the terms are
    those of the cart at payment and [detalles_envio] is [payload]. *)
Theorem compra_hasta_la_entrega (i : Instancia) (payload : json) :
  fase i = EsperaPago ->
  estado (wf i) = ABIERTO ->
  terminos_aceptados (wf i) = true ->
  let i1 := paso (Signal CompletarCompra) i in
  let i2 := paso (ActividadCompletada payload) i1 in
  let i3 := paso (Signal ConfirmarRecepcion) i2 in
  (fase i1 = EsperaEnvio (solicitud_de (wf i))
   /\ wf i1 = set_estado PAGADO (wf i)
   /\ comandos i1 = (comandos i ++ [comando_envio (wf i)])%list)
  /\ (fase i2 = EsperaEntrega
      /\ wf i2 = set_estado ENVIADO (set_envio_resultado payload (wf i)))
  /\ (wf i3 = set_estado ENTREGADO (set_envio_resultado payload (wf i))
      /\ fase i3 = Terminado (_estado_final "COMPLETADO_ENTREGADO" (wf i3))
      /\ comandos i3 = comandos i1).
Proof.
  destruct i as [w f cs]. simpl. intros -> Ha Ht.
  unfold paso, entregar, con_handler. simpl.
  unfold completar_compra, bind, self. rewrite Ha, Ht. simpl.
  unfold reanudar. simpl.
  unfold confirmar_recepcion, bind, self. simpl.
  repeat split.
Qed.

Lemma compra_hasta_la_entrega_witness :
  fase (paso (Signal ConfirmarRecepcion)
          (paso (ActividadCompletada (JObj [("status", JStr "envio_programado")]))
             compra_pagada))
  = Terminado
      (_estado_final "COMPLETADO_ENTREGADO"
         (wf (paso (Signal ConfirmarRecepcion)
                (paso (ActividadCompletada
                         (JObj [("status", JStr "envio_programado")]))
                   compra_pagada)))).
Proof.
  pose proof (compra_hasta_la_entrega
                (ejecutar [Signal (AgregarItem cafe); Signal AceptarTerminos]
                          (iniciar "ana" "terminos-workflow-ana"))
                (JObj [("status", JStr "envio_programado")])
                eq_refl eq_refl eq_refl) as [_ [_ [_ [H _]]]].
  exact H.
Defined.

(** ** What the activity returns *)

(** X12: [despachar_envio_activity] returns a payload exactly when the
    endpoint answered with a status from 200 to 299 and a JSON body, and the
    payload is that body; the exception it raises is marked non-retryable
    exactly when the endpoint answered with a status from 400 to 499. *)
Theorem despachar_envio_activity_resultado
    (post : EnvioRequest -> PostOutcome) (request : EnvioRequest) :
  (forall payload,
     despachar_envio_activity post request = Ok payload
     <-> exists r, post request = Responded r /\ is_success r = true
                   /\ body_json r = Some payload)
  /\ (forall e,
        despachar_envio_activity post request = Raise e ->
        (Temporal.retryable e = false
         <-> exists r, post request = Responded r /\ es_4xx r = true)).
Proof.
  unfold despachar_envio_activity, es_4xx, is_success.
  destruct (post request) as [r|m]; split.
  - intros payload. split.
    + destruct (_ && _) eqn:Es.
      * destruct (body_json r) eqn:Eb; [|discriminate].
        intros H. injection H as <-. exists r. auto.
      * destruct ((400 <=? status_code r) && _); discriminate.
    + intros [r' [Hr [Hs Hb]]]. injection Hr as <-. now rewrite Hs, Hb.
  - intros e. destruct ((200 <=? status_code r) && (status_code r <? 300)) eqn:Es.
    + assert (H4 : (400 <=? status_code r) && (status_code r <? 500) = false).
      { apply andb_true_iff in Es as [_ Hlt]. apply Z.ltb_lt in Hlt.
        apply andb_false_iff. left. apply Z.leb_gt. lia. }
      destruct (body_json r); [discriminate|].
      intros H. injection H as <-. simpl. split; [discriminate|].
      intros [r' [Hr H]]. injection Hr as <-. congruence.
    + destruct ((400 <=? status_code r) && (status_code r <? 500)) eqn:E4;
        intros H; injection H as <-; simpl.
      * split; [|reflexivity]. intros _. exists r. auto.
      * split; [discriminate|].
        intros [r' [Hr H]]. injection Hr as <-. congruence.
  - intros payload. split; [discriminate|]. intros [r [Hr _]]. discriminate.
  - intros e H. injection H as <-. simpl. split; [discriminate|].
    intros [r [Hr _]]. discriminate.
Qed.

Lemma despachar_envio_activity_resultado_witness :
  Temporal.retryable
    (ApplicationError "Error de API no reintentable: boom"
                      (Some "NonRetryableAPIError") true) = false
  <-> exists r, rechazo_400 1%nat (mkEnvioRequest "ana" [] "x") = Responded r
                /\ es_4xx r = true.
Proof.
  apply (proj2 (despachar_envio_activity_resultado
                  (rechazo_400 1%nat) (mkEnvioRequest "ana" [] "x"))).
  reflexivity.
Defined.

(** ** The simulated shipment endpoint *)

Lemma revisar_cantidades_cuerpo (d : Dict.dict Linea) :
  Gateway.revisar_cantidades (map (fun kv => (fst kv, linea_json (snd kv))) d)
  = match primera_sobre_10 d with
    | Some k =>
        Some (Gateway.HTTPException 400
                ("Pedido inválido: Cantidad para " ++ k
                 ++ " excede el límite de 10."))
    | None => None
    end.
Proof.
  induction d as [|[k l] d IH]; simpl; [reflexivity|].
  destruct (10 <? linea_cantidad l); [reflexivity|exact IH].
Qed.

(** X13: the endpoint refuses an order of the workflow that has a line of
    more than 10 units with status 400, naming the first such line, and does
    not count the call: [failure_state] is as it was, so the same order is
    refused again at every call. *)
Theorem despachar_envio_rechaza_sobre_10
    (request : EnvioRequest) (k : string) (fs : Gateway.FailureState) :
  primera_sobre_10 (envio_items request) = Some k ->
  Gateway.despachar_envio (cuerpo_de request) fs
  = (inr (Gateway.HTTPException 400
            ("Pedido inválido: Cantidad para " ++ k
             ++ " excede el límite de 10.")), fs).
Proof.
  intros H. unfold Gateway.despachar_envio, cuerpo_de. simpl.
  now rewrite revisar_cantidades_cuerpo, H.
Qed.

Lemma despachar_envio_rechaza_sobre_10_witness :
  Gateway.despachar_envio
    (cuerpo_de (mkEnvioRequest "ana"
                  [("sku-1", mkLinea "cafe" 10%float 1 10%float);
                   ("sku-2", mkLinea "te" 2.5%float 11 7.5%float)] "x"))
    [("ana", 1)]
  = (inr (Gateway.HTTPException 400
            "Pedido inválido: Cantidad para sku-2 excede el límite de 10."),
     [("ana", 1)]).
Proof.
  apply (despachar_envio_rechaza_sobre_10
           (mkEnvioRequest "ana"
              [("sku-1", mkLinea "cafe" 10%float 1 10%float);
               ("sku-2", mkLinea "te" 2.5%float 11 7.5%float)] "x")
           "sku-2" [("ana", 1)]).
  reflexivity.
Defined.

(** X14: for an order that passes the check of the quantities and a user
    with no entry in [failure_state], the endpoint answers the first call
    with 503 and counts it, and answers the second call with the payload
    [envio_programado] (tracking id [TRK-<user>-999], the number of lines)
    and forgets the user: [failure_state] is again what it was before the
    first call, so the third call fails like the first. *)
Theorem despachar_envio_falla_una_vez
    (request : Gateway.EnvioRequest) (fs : Gateway.FailureState) :
  Gateway.revisar_cantidades (Gateway.req_items request) = None ->
  Dict.get (Gateway.req_usuario_id request) fs = None ->
  let primera := Gateway.despachar_envio request fs in
  let segunda := Gateway.despachar_envio request (snd primera) in
  primera
  = (inr (Gateway.HTTPException 503
            "Servicio de envío no disponible temporalmente"),
     Dict.set (Gateway.req_usuario_id request) 1 fs)
  /\ segunda
     = (inl (JObj [("status", JStr "envio_programado");
                   ("tracking_id",
                    JStr ("TRK-" ++ Gateway.req_usuario_id request ++ "-999"));
                   ("items_despachados",
                    JInt (Z.of_nat (List.length (Gateway.req_items request))))]),
        fs).
Proof.
  intros Hr Hg. simpl. unfold Gateway.despachar_envio.
  rewrite Hr, Hg. simpl. split; [reflexivity|].
  rewrite dict_get_set_same. simpl.
  unfold Dict.mem. rewrite dict_get_set_same.
  assert (Hs : Dict.set (Gateway.req_usuario_id request) 2
                 (Dict.set (Gateway.req_usuario_id request) 1 fs)
               = Dict.set (Gateway.req_usuario_id request) 2 fs).
  { clear Hr. induction fs as [|[k v] fs IH]; simpl in *.
    - now rewrite String.eqb_refl.
    - destruct (String.eqb _ k) eqn:E; [discriminate|].
      simpl. rewrite E. now rewrite (IH Hg). }
  rewrite Hs, (dict_del_set_absent _ _ _ Hg). reflexivity.
Qed.

Lemma despachar_envio_falla_una_vez_witness :
  Gateway.despachar_envio
    (cuerpo_de (mkEnvioRequest "ana"
                  [("sku-1", mkLinea "cafe" 10%float 1 10%float)] "x"))
    [("eva", 1)]
  = (inr (Gateway.HTTPException 503
            "Servicio de envío no disponible temporalmente"),
     [("eva", 1); ("ana", 1)]).
Proof.
  apply (proj1 (despachar_envio_falla_una_vez
                  (cuerpo_de (mkEnvioRequest "ana"
                                [("sku-1", mkLinea "cafe" 10%float 1 10%float)]
                                "x"))
                  [("eva", 1)] eq_refl eq_refl)).
Defined.

(** X15: a call for one user never changes what [failure_state] holds for
    another user, whatever the order and the outcome. *)
Theorem despachar_envio_no_toca_otros_usuarios
    (request : Gateway.EnvioRequest) (fs : Gateway.FailureState) (u : string) :
  u <> Gateway.req_usuario_id request ->
  Dict.get u (snd (Gateway.despachar_envio request fs)) = Dict.get u fs.
Proof.
  intros Hne. unfold Gateway.despachar_envio.
  destruct (Gateway.revisar_cantidades _); [reflexivity|].
  destruct (_ =? 0); simpl; [now apply dict_get_set_other|].
  destruct (Dict.mem _ _); simpl.
  - rewrite dict_get_del_other by exact Hne. now apply dict_get_set_other.
  - now apply dict_get_set_other.
Qed.

Lemma despachar_envio_no_toca_otros_usuarios_witness :
  Dict.get "eva"
    (snd (Gateway.despachar_envio
            (Gateway.mkEnvioRequest "ana" [] "x") [("eva", 1); ("ana", 1)]))
  = Dict.get "eva" [("eva", 1); ("ana", 1)].
Proof.
  apply (despachar_envio_no_toca_otros_usuarios
           (Gateway.mkEnvioRequest "ana" [] "x") [("eva", 1); ("ana", 1)] "eva").
  discriminate.
Defined.

(** ** The control plane: alerts and component status *)

Lemma record_alert_cases (MAX : Z) (time_time : nat -> float)
    (component status message : string) (st : ControlPlane.State) :
  ControlPlane._record_alert MAX time_time component status message st =
    match ControlPlane.int_of_float (time_time (ControlPlane.lecturas st)) with
    | inr e =>
        (inr e,
         ControlPlane.mkState
           (ControlPlane.temporal st) (ControlPlane.gateway st)
           (ControlPlane.workers st) (ControlPlane.last_run_at st)
           (ControlPlane.alerts st) (ControlPlane.component_status st)
           (S (ControlPlane.lecturas st)))
    | inl n =>
        let l := (ControlPlane.alerts st
                  ++ [ControlPlane.alerta_nueva time_time component status
                        message st n])%list in
        (inl tt,
         ControlPlane.mkState
           (ControlPlane.temporal st) (ControlPlane.gateway st)
           (ControlPlane.workers st) (ControlPlane.last_run_at st)
           (if MAX <? Z.of_nat (List.length l)
            then ControlPlane.slice_from (- MAX) l else l)
           (ControlPlane.component_status st)
           (S (S (ControlPlane.lecturas st))))
    end.
Proof.
  unfold ControlPlane._record_alert, ControlPlane.cp_bind, ControlPlane.cp_lift,
    ControlPlane._now, ControlPlane.cp_modify, ControlPlane.cp_get,
    ControlPlane.cp_ret.
  simpl.
  destruct (ControlPlane.int_of_float (time_time (ControlPlane.lecturas st)))
    as [n|e]; simpl; [|reflexivity].
  unfold ControlPlane.alerta_nueva.
  destruct (MAX <? _); reflexivity.
Qed.

(** X16: with a positive [ALERT_HISTORY_MAX], [_record_alert] (when the
    clock reads as an integer) puts the new alert last and keeps of the
    history the most recent [ALERT_HISTORY_MAX] alerts: the oldest ones go
    first, and the history is never longer than the bound afterwards. *)
Theorem record_alert_historial_acotado (MAX : Z) (time_time : nat -> float)
    (component status message : string) (st st' : ControlPlane.State) :
  0 < MAX ->
  ControlPlane._record_alert MAX time_time component status message st
  = (inl tt, st') ->
  exists n,
    ControlPlane.int_of_float (time_time (ControlPlane.lecturas st)) = inl n
    /\ let l := (ControlPlane.alerts st
                 ++ [ControlPlane.alerta_nueva time_time component status
                       message st n])%list in
       ControlPlane.alerts st' = skipn (List.length l - Z.to_nat MAX) l
       /\ Z.of_nat (List.length (ControlPlane.alerts st')) <= MAX
       /\ last (ControlPlane.alerts st')
               (ControlPlane.alerta_nueva time_time component status message
                  st n)
          = ControlPlane.alerta_nueva time_time component status message st n.
Proof.
  intros Hmax. rewrite record_alert_cases.
  destruct (ControlPlane.int_of_float _) as [n|e]; [|discriminate].
  intros H. injection H as <-. exists n. split; [reflexivity|].
  simpl.
  set (a := ControlPlane.alerta_nueva time_time component status message st n).
  set (l := (ControlPlane.alerts st ++ [a])%list).
  assert (Hl : List.length l = S (List.length (ControlPlane.alerts st))).
  { unfold l. rewrite length_app. simpl. lia. }
  assert (Hk : (if MAX <? Z.of_nat (List.length l)
                then ControlPlane.slice_from (- MAX) l else l)
               = skipn (List.length l - Z.to_nat MAX) l).
  { destruct (MAX <? Z.of_nat (List.length l)) eqn:E.
    - apply Z.ltb_lt in E. unfold ControlPlane.slice_from.
      assert (Hneg : (- MAX <? 0) = true) by (apply Z.ltb_lt; lia).
      rewrite Hneg. f_equal. lia.
    - apply Z.ltb_ge in E.
      replace (List.length l - Z.to_nat MAX)%nat with 0%nat by lia.
      reflexivity. }
  rewrite Hk. split; [reflexivity|]. split.
  - rewrite length_skipn. lia.
  - rewrite Hl. unfold l. rewrite skipn_app.
    replace (S (List.length (ControlPlane.alerts st)) - Z.to_nat MAX
             - List.length (ControlPlane.alerts st))%nat with 0%nat by lia.
    simpl. apply last_last.
Qed.

Lemma record_alert_historial_acotado_witness :
  Z.of_nat (List.length
              (ControlPlane.alerts
                 (snd (ControlPlane._record_alert 1 reloj_fijo "gateway" "error" "m"
                         (snd (ControlPlane._record_alert 1 reloj_fijo "temporal"
                                 "ok" "m" ControlPlane.State_init)))))) <= 1.
Proof.
  destruct (record_alert_historial_acotado
              1 reloj_fijo "gateway" "error" "m"
              (snd (ControlPlane._record_alert 1 reloj_fijo "temporal" "ok" "m"
                      ControlPlane.State_init))
              (snd (ControlPlane._record_alert 1 reloj_fijo "gateway" "error" "m"
                      (snd (ControlPlane._record_alert 1 reloj_fijo "temporal"
                              "ok" "m" ControlPlane.State_init))))
              eq_refl eq_refl) as [n [_ [_ [H _]]]].
  exact H.
Defined.

(** X17: with [ALERT_HISTORY_MAX] at 0 the history is never cut: the bound
    is exceeded at every alert, but the slice [alerts[-0:]] is the whole
    list; with a negative setting every alert drops that many of the oldest
    entries instead. In both cases [_record_alert] leaves the history with
    the new alert appended and its first [-ALERT_HISTORY_MAX] entries
    removed. *)
Theorem record_alert_sin_limite (MAX : Z) (time_time : nat -> float)
    (component status message : string) (st st' : ControlPlane.State) :
  MAX <= 0 ->
  ControlPlane._record_alert MAX time_time component status message st
  = (inl tt, st') ->
  exists n,
    ControlPlane.int_of_float (time_time (ControlPlane.lecturas st)) = inl n
    /\ ControlPlane.alerts st'
       = skipn (Z.to_nat (- MAX))
               (ControlPlane.alerts st
                ++ [ControlPlane.alerta_nueva time_time component status
                      message st n])%list.
Proof.
  intros Hmax. rewrite record_alert_cases.
  destruct (ControlPlane.int_of_float _) as [n|e]; [|discriminate].
  intros H. injection H as <-. exists n. split; [reflexivity|]. simpl.
  set (l := (ControlPlane.alerts st ++ _)%list).
  assert (Hl : (0 < List.length l)%nat).
  { unfold l. rewrite length_app. simpl. lia. }
  assert (E : (MAX <? Z.of_nat (List.length l)) = true) by (apply Z.ltb_lt; lia).
  rewrite E. unfold ControlPlane.slice_from.
  assert (Hneg : (- MAX <? 0) = false) by (apply Z.ltb_ge; lia).
  rewrite Hneg.
  destruct (Z.le_gt_cases (- MAX) (Z.of_nat (List.length l))) as [Hle|Hgt].
  - now rewrite Z.min_l.
  - rewrite Z.min_r by lia. rewrite Nat2Z.id.
    rewrite !skipn_all2; [reflexivity|lia|lia].
Qed.

Lemma record_alert_sin_limite_witness :
  List.length
    (ControlPlane.alerts
       (snd (ControlPlane._record_alert 0 reloj_fijo "gateway" "error" "m"
               (snd (ControlPlane._record_alert 0 reloj_fijo "temporal" "ok" "m"
                       ControlPlane.State_init))))) = 2%nat.
Proof.
  destruct (record_alert_sin_limite
              0 reloj_fijo "gateway" "error" "m"
              (snd (ControlPlane._record_alert 0 reloj_fijo "temporal" "ok" "m"
                      ControlPlane.State_init))
              (snd (ControlPlane._record_alert 0 reloj_fijo "gateway" "error" "m"
                      (snd (ControlPlane._record_alert 0 reloj_fijo "temporal"
                              "ok" "m" ControlPlane.State_init))))
              (Z.le_refl 0) eq_refl) as [n [Hn H]].
  rewrite H. vm_compute in Hn. injection Hn as <-. reflexivity.
Defined.

Lemma update_component_status_cases (MAX : Z) (time_time : nat -> float)
    (component status message : string) (st : ControlPlane.State) :
  ControlPlane._update_component_status MAX time_time component status message st
  = match Dict.get component (ControlPlane.component_status st) with
    | Some p =>
        if String.eqb p status then (inl tt, st)
        else
          match ControlPlane._record_alert MAX time_time component status
                  message st with
          | (inl _, st1) =>
              (inl tt,
               ControlPlane.set_component_status
                 (Dict.set component status (ControlPlane.component_status st1))
                 st1)
          | (inr e, st1) => (inr e, st1)
          end
    | None =>
        match ControlPlane._record_alert MAX time_time component status
                message st with
        | (inl _, st1) =>
            (inl tt,
             ControlPlane.set_component_status
               (Dict.set component status (ControlPlane.component_status st1))
               st1)
        | (inr e, st1) => (inr e, st1)
        end
    end.
Proof.
  unfold ControlPlane._update_component_status.
  unfold ControlPlane.cp_bind at 1. unfold ControlPlane.cp_get at 1.
  destruct (Dict.get component (ControlPlane.component_status st)) as [p|].
  - destruct (String.eqb p status); simpl; [reflexivity|].
    unfold ControlPlane.cp_bind.
    destruct (ControlPlane._record_alert _ _ _ _ _ st) as [[[]|e] st1];
      reflexivity.
  - simpl. unfold ControlPlane.cp_bind.
    destruct (ControlPlane._record_alert _ _ _ _ _ st) as [[[]|e] st1];
      reflexivity.
Qed.

Lemma record_alert_marco (MAX : Z) (time_time : nat -> float)
    (component status message : string) (st : ControlPlane.State) :
  let st' := snd (ControlPlane._record_alert MAX time_time component status
                    message st) in
  ControlPlane.component_status st' = ControlPlane.component_status st
  /\ ControlPlane.temporal st' = ControlPlane.temporal st
  /\ ControlPlane.gateway st' = ControlPlane.gateway st
  /\ ControlPlane.workers st' = ControlPlane.workers st
  /\ ControlPlane.last_run_at st' = ControlPlane.last_run_at st.
Proof.
  simpl. rewrite record_alert_cases.
  destruct (ControlPlane.int_of_float _); simpl; repeat split.
Qed.

(** What [_update_component_status] does to the table and to the rest of
    the state when it returns. *)
Lemma update_component_status_efecto (MAX : Z) (time_time : nat -> float)
    (component status message : string) (st st' : ControlPlane.State) :
  ControlPlane._update_component_status MAX time_time component status message st
  = (inl tt, st') ->
  Dict.get component (ControlPlane.component_status st') = Some status
  /\ (forall k, k <> component ->
        Dict.get k (ControlPlane.component_status st')
        = Dict.get k (ControlPlane.component_status st))
  /\ ControlPlane.temporal st' = ControlPlane.temporal st
  /\ ControlPlane.gateway st' = ControlPlane.gateway st
  /\ ControlPlane.workers st' = ControlPlane.workers st
  /\ ControlPlane.last_run_at st' = ControlPlane.last_run_at st.
Proof.
  rewrite update_component_status_cases.
  pose proof (record_alert_marco MAX time_time component status message st)
    as [Hc [Ht [Hg [Hw Hl]]]]. simpl in Hc, Ht, Hg, Hw, Hl.
  assert (Hrec : forall st1,
            (inl tt : unit + ControlPlane.error,
             ControlPlane.set_component_status
               (Dict.set component status (ControlPlane.component_status st1))
               st1) = (inl tt, st') ->
            st1 = snd (ControlPlane._record_alert MAX time_time component
                         status message st) ->
            Dict.get component (ControlPlane.component_status st') = Some status
            /\ (forall k, k <> component ->
                  Dict.get k (ControlPlane.component_status st')
                  = Dict.get k (ControlPlane.component_status st))
            /\ ControlPlane.temporal st' = ControlPlane.temporal st
            /\ ControlPlane.gateway st' = ControlPlane.gateway st
            /\ ControlPlane.workers st' = ControlPlane.workers st
            /\ ControlPlane.last_run_at st' = ControlPlane.last_run_at st).
  { intros st1 H ->. injection H as <-. simpl. rewrite Hc.
    split; [apply dict_get_set_same|].
    split; [intros k Hk; now apply dict_get_set_other|]. auto. }
  destruct (Dict.get component (ControlPlane.component_status st)) as [p|] eqn:Eg.
  - destruct (String.eqb p status) eqn:Ep.
    + apply String.eqb_eq in Ep. subst p. intros H. injection H as <-.
      repeat split; auto.
    + destruct (ControlPlane._record_alert _ _ _ _ _ st) as [[[]|e] st1] eqn:Er;
        [|discriminate].
      intros H. apply (Hrec st1 H). reflexivity.
  - destruct (ControlPlane._record_alert _ _ _ _ _ st) as [[[]|e] st1] eqn:Er;
      [|discriminate].
    intros H. apply (Hrec st1 H). reflexivity.
Qed.

(** X18: [_update_component_status] records an alert only when the status
    of the component changes. A call with the status the table already holds
    for the component changes nothing, not even the clock; and after any call
    that returns, the table holds the new status for the component, so the
    same call made again (with any message) changes nothing. *)
Theorem update_component_status_solo_en_cambios
    (MAX : Z) (time_time : nat -> float)
    (component status message message' : string)
    (st st' : ControlPlane.State) :
  (Dict.get component (ControlPlane.component_status st) = Some status ->
   ControlPlane._update_component_status MAX time_time component status
     message st = (inl tt, st))
  /\ (ControlPlane._update_component_status MAX time_time component status
        message st = (inl tt, st') ->
      Dict.get component (ControlPlane.component_status st') = Some status
      /\ ControlPlane._update_component_status MAX time_time component status
           message' st' = (inl tt, st')).
Proof.
  assert (Hsame : forall s m,
            Dict.get component (ControlPlane.component_status s) = Some status ->
            ControlPlane._update_component_status MAX time_time component
              status m s = (inl tt, s)).
  { intros s m H. rewrite update_component_status_cases, H.
    now rewrite String.eqb_refl. }
  split; [apply Hsame|].
  intros H.
  pose proof (update_component_status_efecto _ _ _ _ _ _ _ H) as [Hg _].
  split; [exact Hg|apply Hsame, Hg].
Qed.

Lemma update_component_status_solo_en_cambios_witness :
  ControlPlane._update_component_status 200 reloj_fijo "gateway" "ok" "otra vez"
    (snd (ControlPlane._update_component_status 200 reloj_fijo "gateway" "ok"
            "Gateway status: ok" ControlPlane.State_init))
  = (inl tt,
     snd (ControlPlane._update_component_status 200 reloj_fijo "gateway" "ok"
            "Gateway status: ok" ControlPlane.State_init)).
Proof.
  apply (proj2 (update_component_status_solo_en_cambios
                  200 reloj_fijo "gateway" "ok" "Gateway status: ok" "otra vez"
                  ControlPlane.State_init
                  (snd (ControlPlane._update_component_status
                          200 reloj_fijo "gateway" "ok" "Gateway status: ok"
                          ControlPlane.State_init)))).
  reflexivity.
Defined.

(** ** The control plane: snapshot, workers and checks *)

Lemma status_ok_iff (d : Dict.dict json) :
  ControlPlane.status_ok d = true <-> Dict.get "status" d = Some (JStr "ok").
Proof.
  unfold ControlPlane.status_ok.
  destruct (Dict.get "status" d) as [[|b|z|f|s|xs|fs]|]; try (split; discriminate).
  split.
  - intros H. apply String.eqb_eq in H. now subst.
  - intros H. injection H as ->. reflexivity.
Qed.

(** X19: the snapshot reports [overall] as "ok" exactly when the states of
    temporal, gateway and workers all have the status "ok", and as "degraded"
    in every other case (a status that is missing or "unknown" included); its
    alerts are the last ten of the history, or all of them when there are
    fewer. *)
Theorem build_snapshot_overall (st : ControlPlane.State) :
  let snap := ControlPlane._build_snapshot st in
  (ControlPlane.snap_overall snap = "ok"
   <-> Dict.get "status" (ControlPlane.temporal st) = Some (JStr "ok")
       /\ Dict.get "status" (ControlPlane.gateway st) = Some (JStr "ok")
       /\ ControlPlane.workers_status (ControlPlane.workers st) = "ok")
  /\ (ControlPlane.snap_overall snap = "ok"
      \/ ControlPlane.snap_overall snap = "degraded")
  /\ ControlPlane.snap_alerts snap
     = skipn (List.length (ControlPlane.alerts st) - 10) (ControlPlane.alerts st)
  /\ (List.length (ControlPlane.snap_alerts snap) <= 10)%nat.
Proof.
  assert (Hs : ControlPlane.slice_from (-10) (ControlPlane.alerts st)
               = skipn (List.length (ControlPlane.alerts st) - 10)
                       (ControlPlane.alerts st)).
  { unfold ControlPlane.slice_from.
    assert (Hneg : (-10 <? 0) = true) by reflexivity. rewrite Hneg.
    f_equal. lia. }
  unfold ControlPlane._build_snapshot.
  cbn [ControlPlane.snap_overall ControlPlane.snap_alerts].
  rewrite Hs, length_skipn. rewrite <- !status_ok_iff.
  split; [|split; [|split; [reflexivity|lia]]].
  - destruct (ControlPlane.status_ok (ControlPlane.temporal st));
      destruct (ControlPlane.status_ok (ControlPlane.gateway st));
      destruct (String.eqb _ "ok") eqn:E; simpl;
      (split; [intros H; try discriminate H;
               apply String.eqb_eq in E; auto
              |intros [H1 [H2 H3]]; try discriminate;
               apply String.eqb_eq in H3; congruence]).
  - destruct (_ && _); auto.
Qed.

Lemma dict_set_absent {V} (k : string) (v : V) (d : Dict.dict V) :
  ~ In k (claves d) -> Dict.set k v d = (d ++ [(k, v)])%list.
Proof.
  induction d as [|[k' v'] d IH]; simpl; [reflexivity|].
  intros H. destruct (String.eqb k k') eqn:E.
  - apply String.eqb_eq in E. subst. exfalso. auto.
  - rewrite IH; [reflexivity|]. intros Hin. apply H. now right.
Qed.

(** The loop of [_evaluate_workers] on entries with distinct keys: every
    entry is evaluated in its place, and [degraded] is set as soon as one is
    stale. *)
Lemma evaluate_loop_spec (TTL : float) (now : float)
    (entries acc acc' : Dict.dict (Dict.dict json)) (deg deg' : bool) :
  NoDup (claves acc ++ claves entries)%list ->
  ControlPlane.evaluate_loop TTL now entries acc deg = inl (acc', deg') ->
  exists evaluated,
    acc' = (acc ++ evaluated)%list
    /\ Forall2 (fun old new =>
                  fst new = fst old
                  /\ exists age,
                       ControlPlane.age_of now (snd old) = inl age
                       /\ snd new = ControlPlane.evaluated_entry TTL (snd old) age)
               entries evaluated
    /\ (deg' = true <->
        deg = true
        \/ Exists (fun new => Dict.get "stale" (snd new) = Some (JBool true))
                  evaluated).
Proof.
  revert acc deg. induction entries as [|[k d] entries IH]; intros acc deg Hnd.
  - simpl. intros H. injection H as <- <-. exists []. rewrite app_nil_r.
    split; [reflexivity|]. split; [constructor|].
    split; [auto|]. intros [H|H]; [exact H|inversion H].
  - simpl. destruct (ControlPlane.age_of now d) as [age|e] eqn:Ea; [|discriminate].
    intros H.
    assert (Hk : ~ In k (claves acc)).
    { intros Hin. apply NoDup_remove_2 in Hnd. apply Hnd.
      apply in_or_app. now left. }
    rewrite (dict_set_absent _ _ _ Hk) in H.
    apply IH in H.
    + destruct H as [ev [-> [Hf Hd]]].
      exists ((k, ControlPlane.evaluated_entry TTL d age) :: ev).
      split; [now rewrite <- app_assoc|].
      split; [constructor; [simpl; eauto|exact Hf]|].
      assert (Hst : Dict.get "stale" (ControlPlane.evaluated_entry TTL d age)
                    = Some (JBool (ControlPlane.is_stale_of TTL age)))
        by apply dict_get_set_same.
      rewrite Hd. rewrite Exists_cons. simpl. rewrite Hst.
      destruct (ControlPlane.is_stale_of TTL age); split; try tauto.
      intros [H|[H|H]]; auto. discriminate.
    + unfold claves in *. rewrite map_app. simpl. rewrite <- app_assoc. simpl.
      exact Hnd.
Qed.

(** X20: [_evaluate_workers] reads the clock once and changes nothing else
    of the state. With no worker registered its verdict is "unknown". With
    workers (under distinct keys) and when it returns, it gives back the same
    workers in the same order, each entry being the old one with [age_sec]
    and [stale] set, and its verdict is "degraded" exactly when one of the
    entries it gives back is marked stale, "ok" otherwise: no worker is ever
    dropped for being stale. *)
Theorem evaluate_workers_veredicto (TTL : float) (time_time : nat -> float)
    (st st' : ControlPlane.State) (r : ControlPlane.WorkerEval) :
  NoDup (claves (ControlPlane.workers_entries (ControlPlane.workers st))) ->
  ControlPlane._evaluate_workers TTL time_time st = (inl r, st') ->
  let entries := ControlPlane.workers_entries (ControlPlane.workers st) in
  let now := time_time (ControlPlane.lecturas st) in
  st' = snd (ControlPlane._now time_time st)
  /\ (entries = [] -> r = ControlPlane.mkWorkerEval "unknown" [])
  /\ (entries <> [] ->
      Forall2 (fun old new =>
                 fst new = fst old
                 /\ exists age,
                      ControlPlane.age_of now (snd old) = inl age
                      /\ snd new
                         = ControlPlane.evaluated_entry TTL (snd old) age)
              entries (ControlPlane.eval_entries r)
      /\ (ControlPlane.eval_status r = "degraded"
          \/ ControlPlane.eval_status r = "ok")
      /\ (ControlPlane.eval_status r = "degraded"
          <-> Exists (fun new =>
                        Dict.get "stale" (snd new) = Some (JBool true))
                     (ControlPlane.eval_entries r))).
Proof.
  intros Hnd. unfold ControlPlane._evaluate_workers, ControlPlane.cp_bind,
    ControlPlane.cp_get, ControlPlane._now, ControlPlane.cp_lift,
    ControlPlane.cp_ret. simpl.
  destruct (ControlPlane.workers_entries (ControlPlane.workers st))
    as [|kd entries] eqn:Ee.
  - intros H. injection H as <- <-. split; [reflexivity|].
    split; [reflexivity|]. intros Hne. contradiction.
  - destruct (ControlPlane.evaluate_loop TTL _ (kd :: entries) [] false)
      as [[acc' deg']|e] eqn:El; [|discriminate].
    intros H. injection H as <- <-. split; [reflexivity|].
    split; [discriminate|]. intros _.
    apply evaluate_loop_spec in El; [|exact Hnd].
    destruct El as [ev [-> [Hf Hd]]]. simpl.
    split; [exact Hf|].
    split; [destruct deg'; auto|].
    destruct deg'; split; intros H.
    + destruct (proj1 Hd eq_refl) as [F|E]; [discriminate|exact E].
    + reflexivity.
    + discriminate.
    + pose proof (proj2 Hd (or_intror H)). discriminate.
Qed.

Lemma evaluate_workers_veredicto_witness :
  match fst (ControlPlane._evaluate_workers 20%float reloj_fijo
               (snd (ControlPlane.workers_heartbeat reloj_fijo latido
                       ControlPlane.State_init))) with
  | inl r => ControlPlane.eval_status r = "degraded"
             \/ ControlPlane.eval_status r = "ok"
  | inr _ => False
  end.
Proof.
  destruct (ControlPlane._evaluate_workers 20%float reloj_fijo
              (snd (ControlPlane.workers_heartbeat reloj_fijo latido
                      ControlPlane.State_init))) as [[r|e] st'] eqn:E; simpl.
  - assert (Hnd : NoDup (claves (ControlPlane.workers_entries
                                   (ControlPlane.workers
                                      (snd (ControlPlane.workers_heartbeat
                                              reloj_fijo latido
                                              ControlPlane.State_init)))))).
    { vm_compute. repeat constructor. simpl. tauto. }
    pose proof (evaluate_workers_veredicto 20%float reloj_fijo _ st' r Hnd E)
      as [_ [_ H]].
    assert (Hne : ControlPlane.workers_entries
                    (ControlPlane.workers
                       (snd (ControlPlane.workers_heartbeat
                               reloj_fijo latido ControlPlane.State_init)))
                  <> []) by (vm_compute; discriminate).
    destruct (H Hne) as [_ [Hs _]]. exact Hs.
  - vm_compute in E. discriminate E.
Defined.

(** X21: [workers_heartbeat] never raises and answers [{"status": "ok"}].
    It stores, under the key [task_queue:worker_id], a fresh entry with the
    clock reading as [last_seen] (an earlier entry of the same worker, with
    its [age_sec] and [stale], is replaced in its place and not duplicated);
    the entries of the other workers, the status of the workers component and
    the alerts are as they were. *)
Theorem workers_heartbeat_registra (time_time : nat -> float)
    (payload : ControlPlane.WorkerHeartbeat) (st : ControlPlane.State)
    (k : string) :
  let r := ControlPlane.workers_heartbeat time_time payload st in
  let key := (ControlPlane.hb_task_queue payload ++ ":"
              ++ ControlPlane.hb_worker_id payload) in
  let entries := ControlPlane.workers_entries (ControlPlane.workers st) in
  let entries' := ControlPlane.workers_entries (ControlPlane.workers (snd r)) in
  fst r = inl [("status", JStr "ok")]
  /\ Dict.get key entries'
     = Some [("task_queue", JStr (ControlPlane.hb_task_queue payload));
             ("worker_id", JStr (ControlPlane.hb_worker_id payload));
             ("version", match ControlPlane.hb_version payload with
                         | Some v => JStr v
                         | None => JNull
                         end);
             ("metadata", match ControlPlane.hb_metadata payload with
                          | Some m => JObj m
                          | None => JObj []
                          end);
             ("last_seen", JFloat (time_time (ControlPlane.lecturas st)))]
  /\ (k <> key -> Dict.get k entries' = Dict.get k entries)
  /\ (Dict.mem key entries = true -> claves entries' = claves entries)
  /\ ControlPlane.workers_status (ControlPlane.workers (snd r))
     = ControlPlane.workers_status (ControlPlane.workers st)
  /\ ControlPlane.alerts (snd r) = ControlPlane.alerts st
  /\ ControlPlane.component_status (snd r) = ControlPlane.component_status st.
Proof.
  simpl. unfold ControlPlane.workers_heartbeat, ControlPlane.cp_bind,
    ControlPlane._now, ControlPlane.cp_modify, ControlPlane.cp_ret,
    ControlPlane.heartbeat_key. simpl.
  split; [reflexivity|]. split; [apply dict_get_set_same|].
  split; [intros Hk; now apply dict_get_set_other|].
  split; [|auto].
  intros Hm. rewrite dict_set_claves. now rewrite Hm.
Qed.

Lemma workers_heartbeat_registra_witness :
  claves (ControlPlane.workers_entries
            (ControlPlane.workers
               (snd (ControlPlane.workers_heartbeat reloj_fijo latido
                       (snd (ControlPlane.workers_heartbeat reloj_fijo latido
                               ControlPlane.State_init))))))
  = claves (ControlPlane.workers_entries
              (ControlPlane.workers
                 (snd (ControlPlane.workers_heartbeat reloj_fijo latido
                         ControlPlane.State_init)))).
Proof.
  apply (workers_heartbeat_registra
           reloj_fijo latido
           (snd (ControlPlane.workers_heartbeat reloj_fijo latido
                   ControlPlane.State_init)) "otra").
  vm_compute. reflexivity.
Defined.


Lemma cp_bind_inl {A B} (m : ControlPlane.CP A) (k : A -> ControlPlane.CP B)
    (st st' : ControlPlane.State) (b : B) :
  ControlPlane.cp_bind m k st = (inl b, st') ->
  exists a st1, m st = (inl a, st1) /\ k a st1 = (inl b, st').
Proof.
  unfold ControlPlane.cp_bind. destruct (m st) as [[a|e] st1]; [|discriminate].
  intros H. now exists a, st1.
Qed.

Lemma evaluate_workers_estado (TTL : float) (time_time : nat -> float)
    (st st' : ControlPlane.State) (r : ControlPlane.WorkerEval) :
  ControlPlane._evaluate_workers TTL time_time st = (inl r, st') ->
  st' = snd (ControlPlane._now time_time st).
Proof.
  unfold ControlPlane._evaluate_workers, ControlPlane.cp_bind,
    ControlPlane.cp_get, ControlPlane._now, ControlPlane.cp_lift,
    ControlPlane.cp_ret. simpl.
  destruct (ControlPlane.workers_entries (ControlPlane.workers st)).
  - intros H. now injection H as _ <-.
  - destruct (ControlPlane.evaluate_loop _ _ _ _ _); [|discriminate].
    intros H. now injection H as _ <-.
Qed.

(** X23: after a turn of the collector that runs to its end, the table
    [component_status] agrees with the states of the components: for
    temporal and gateway it holds the status of the check just stored (with
    its [checked_at]), for the workers the verdict just stored. *)
Theorem collector_turn_tabla_al_dia
    (MAX : Z) (TTL : float) (time_time : nat -> float)
    (temporal_result gateway_result : ControlPlane.CheckResult)
    (st st' : ControlPlane.State) :
  ControlPlane.collector_turn MAX TTL time_time temporal_result gateway_result st
  = (inl tt, st') ->
  (Dict.get "status" (ControlPlane.temporal st')
   = Some (JStr (ControlPlane.check_status temporal_result))
   /\ Dict.get "temporal" (ControlPlane.component_status st')
      = Some (ControlPlane.check_status temporal_result))
  /\ (Dict.get "status" (ControlPlane.gateway st')
      = Some (JStr (ControlPlane.check_status gateway_result))
      /\ Dict.get "gateway" (ControlPlane.component_status st')
         = Some (ControlPlane.check_status gateway_result))
  /\ Dict.get "workers" (ControlPlane.component_status st')
     = Some (ControlPlane.workers_status (ControlPlane.workers st'))
  /\ (exists t, ControlPlane.last_run_at st' = Some t).
Proof.
  unfold ControlPlane.collector_turn. intros H.
  apply cp_bind_inl in H as [t1 [s1 [H1 H]]].
  apply cp_bind_inl in H as [[] [s2 [H2 H]]].
  apply cp_bind_inl in H as [t2 [s3 [H3 H]]].
  apply cp_bind_inl in H as [[] [s4 [H4 H]]].
  apply cp_bind_inl in H as [we [s5 [H5 H]]].
  apply cp_bind_inl in H as [t3 [s6 [H6 H]]].
  apply cp_bind_inl in H as [[] [s7 [H7 H]]].
  apply cp_bind_inl in H as [[] [s8 [H8 H]]].
  apply cp_bind_inl in H as [[] [s9 [H9 H]]].
  apply cp_bind_inl in H as [[] [s10 [H10 H]]].
  apply cp_bind_inl in H as [t4 [s11 [H11 H]]].
  apply update_component_status_efecto in H8 as [G8 [F8 [T8 [W8 [K8 _]]]]].
  apply update_component_status_efecto in H9 as [G9 [F9 [T9 [W9 [K9 _]]]]].
  apply update_component_status_efecto in H10 as [G10 [F10 [T10 [W10 [K10 _]]]]].
  apply evaluate_workers_estado in H5.
  unfold ControlPlane._now in *. unfold ControlPlane.cp_modify in *.
  injection H1 as <- <-. injection H2 as <-. injection H3 as <- <-.
  injection H4 as <-. injection H6 as <- <-. injection H7 as <-.
  injection H11 as <- <-. injection H as <-.
  subst s5. simpl in *.
  rewrite T10, T9, T8, W10, W9, W8, K10, K9, K8. simpl.
  unfold ControlPlane.check_dict. simpl.
  repeat split.
  - rewrite F10, F9 by discriminate. exact G8.
  - rewrite F10 by discriminate. exact G9.
  - exact G10.
  - eexists. reflexivity.
Qed.

Lemma collector_turn_tabla_al_dia_witness :
  Dict.get "gateway"
    (ControlPlane.component_status
       (snd (ControlPlane.collector_turn 200 20%float reloj_fijo
               (ControlPlane.mkCheckResult "ok" [])
               (ControlPlane.mkCheckResult "error" [])
               ControlPlane.State_init)))
  = Some "error".
Proof.
  assert (E : ControlPlane.collector_turn 200 20%float reloj_fijo
                (ControlPlane.mkCheckResult "ok" [])
                (ControlPlane.mkCheckResult "error" [])
                ControlPlane.State_init
              = (inl tt,
                 snd (ControlPlane.collector_turn 200 20%float reloj_fijo
                        (ControlPlane.mkCheckResult "ok" [])
                        (ControlPlane.mkCheckResult "error" [])
                        ControlPlane.State_init)))
    by (vm_compute; reflexivity).
  pose proof (collector_turn_tabla_al_dia _ _ _ _ _ _ _ E) as [_ [[_ H] _]].
  exact H.
Defined.
